(** * Subscription entitlement, trial reconciliation and payment processing

    A shallow embedding of the subscription and instance-entitlement logic of
    the control plane:

    - [models/User.js]       the subscription methods of the user document;
    - [models/Instance.js]   the instance schema (status enum) and its methods;
    - [middleware/auth.js]   [checkInstanceLimit];
    - [services/trialService.js]  [handleExpiredTrial], [enableUserInstances];
    - the subscription routes ([processAffiliateCommission],
      [/convert-to-paid], [/webhook/payment]) and [routes/payments.js]
      ([processSuccessfulPayment]).

    Modelling conventions.

    - A [Date] is its millisecond timestamp, a [Z].  Every function that the
      source lets read the system clock ([new Date()], [Date.now()]) takes
      the reading as an explicit argument [now]; one handler run uses one
      reading.
    - Counts and instance limits are [Z] (JavaScript integers far below
      2^53).  Money ([price], [amount], earnings) is a JavaScript Number that
      is not an integer in general: an IEEE 754 binary64 value, modelled by
      the primitive type [float] with its own [+], [*], [/] and comparisons
      (binary64, round to nearest even, as in JavaScript).  A decimal
      literal such as [19.99] denotes the nearest binary64 value in both
      languages.  [NaN] is a value of the type.
    - A MongoDB collection is a finite map from the document [_id] to the
      document.  [save] runs the schema validators first and writes only a
      valid document, as Mongoose does; a rejected [save] is an exception
      in the source and an [inl] result here.  [save] writes the paths of
      the schema only (Mongoose's strict mode): a property that a handler
      assigns outside the schema stays on the in-memory document and never
      reaches the store ([stored_user], [stored_instance]).
    - A route handler that ends by throwing has sent no HTTP answer; this
      is an [inl] result of the handler.
    - The provisioning gateway never throws ([ofclockApi] turns every fault
      into [success: false]); its answers are an explicit argument. *)

From Stdlib Require Import ZArith String List Lia Bool.
From Stdlib Require Import Floats.PrimFloat.
From stdpp Require Import base option gmap fin_maps list pretty.

Set Default Proof Using "Type".
Set Warnings "-inexact-float".
Local Open Scope Z_scope.

(** ** Data model *)

(** [subscription.plan], enum ['free', 'starter', 'pro']. *)
Inductive Plan := free | starter | pro.

(** [subscription.status], enum ['trial', 'active', 'expired', 'cancelled']. *)
Inductive SubStatus := trial | active | expired | cancelled.

(** [affiliateStatus] of a user. *)
Inductive AffiliateStatus := not_affiliate | aff_pending | aff_active | aff_suspended.

(** The values the code assigns to [instance.status] or compares it with.
    ['disabled'] is written by the trial service; the schema enum is
    [statusEnum] below. *)
Inductive InstanceStatus :=
  deploying | running | stopped | disabled | error | deleting.

#[global] Instance Plan_eq_dec : EqDecision Plan.
Proof. solve_decision. Defined.
#[global] Instance SubStatus_eq_dec : EqDecision SubStatus.
Proof. solve_decision. Defined.
#[global] Instance AffiliateStatus_eq_dec : EqDecision AffiliateStatus.
Proof. solve_decision. Defined.
#[global] Instance InstanceStatus_eq_dec : EqDecision InstanceStatus.
Proof. solve_decision. Defined.

(** An entry of the array [subscription.payments] that
    [processSuccessfulPayment] builds on the in-memory document. *)
Record Payment := mkPayment {
  pay_transactionId : string;
  pay_amount : float;
  pay_date : Z
}.

(** The [subscription] sub-record of a user document in memory.
    [maxInstances] is [None] when the field is [undefined] or [null].
    [lastPaymentDate], [expiredAt] and [payments] are properties that the
    handlers assign although [userSchema] does not declare them: they exist
    on the in-memory document only and are dropped by [save()]
    ([stored_user] below). *)
Record Subscription := mkSubscription {
  plan : Plan;
  status : SubStatus;
  maxInstances : option Z;
  price : float;
  trialEndsAt : Z;
  nextBillingDate : option Z;
  lastPaymentDate : option Z;
  expiredAt : option Z;
  payments : list Payment
}.

Record User := mkUser {
  user_id : nat;
  referredBy : option nat;
  affiliateStatus : AffiliateStatus;
  activeReferrals : Z;
  subscription : Subscription
}.

(** An instance document in memory.  [disabledAt], [disabledReason],
    [enabledAt] and [enabledReason] are the properties that the trial
    service assigns under [metadata]; [instanceSchema] does not declare
    them, so [save()] drops them ([stored_instance] below). *)
Record Instance := mkInstance {
  inst_id : nat;
  userId : nat;
  inst_status : InstanceStatus;
  deletedAt : option Z;
  disabledAt : option Z;
  disabledReason : option string;
  enabledAt : option Z;
  enabledReason : option string
}.

(** Field updates ([this.subscription.f = v]). *)
Definition set_plan (p : Plan) (s : Subscription) : Subscription :=
  mkSubscription p (status s) (maxInstances s) (price s) (trialEndsAt s)
    (nextBillingDate s) (lastPaymentDate s) (expiredAt s) (payments s).
Definition set_status (x : SubStatus) (s : Subscription) : Subscription :=
  mkSubscription (plan s) x (maxInstances s) (price s) (trialEndsAt s)
    (nextBillingDate s) (lastPaymentDate s) (expiredAt s) (payments s).
Definition set_maxInstances (m : option Z) (s : Subscription) : Subscription :=
  mkSubscription (plan s) (status s) m (price s) (trialEndsAt s)
    (nextBillingDate s) (lastPaymentDate s) (expiredAt s) (payments s).
Definition set_price (p : float) (s : Subscription) : Subscription :=
  mkSubscription (plan s) (status s) (maxInstances s) p (trialEndsAt s)
    (nextBillingDate s) (lastPaymentDate s) (expiredAt s) (payments s).
Definition set_nextBillingDate (d : option Z) (s : Subscription) : Subscription :=
  mkSubscription (plan s) (status s) (maxInstances s) (price s) (trialEndsAt s)
    d (lastPaymentDate s) (expiredAt s) (payments s).
Definition set_lastPaymentDate (d : option Z) (s : Subscription) : Subscription :=
  mkSubscription (plan s) (status s) (maxInstances s) (price s) (trialEndsAt s)
    (nextBillingDate s) d (expiredAt s) (payments s).
Definition set_expiredAt (d : option Z) (s : Subscription) : Subscription :=
  mkSubscription (plan s) (status s) (maxInstances s) (price s) (trialEndsAt s)
    (nextBillingDate s) (lastPaymentDate s) d (payments s).
Definition set_payments (l : list Payment) (s : Subscription) : Subscription :=
  mkSubscription (plan s) (status s) (maxInstances s) (price s) (trialEndsAt s)
    (nextBillingDate s) (lastPaymentDate s) (expiredAt s) l.

Definition with_subscription (f : Subscription -> Subscription) (u : User) : User :=
  mkUser (user_id u) (referredBy u) (affiliateStatus u) (activeReferrals u)
    (f (subscription u)).

Definition set_inst_status (x : InstanceStatus) (i : Instance) : Instance :=
  mkInstance (inst_id i) (userId i) x (deletedAt i) (disabledAt i)
    (disabledReason i) (enabledAt i) (enabledReason i).

(** What [save()] writes of a document: its schema paths.  The properties
    assigned outside the schema are not part of the stored document. *)
Definition stored_subscription (s : Subscription) : Subscription :=
  mkSubscription (plan s) (status s) (maxInstances s) (price s) (trialEndsAt s)
    (nextBillingDate s) None None [].

Definition stored_user (u : User) : User := with_subscription stored_subscription u.

Definition stored_instance (i : Instance) : Instance :=
  mkInstance (inst_id i) (userId i) (inst_status i) (deletedAt i) None None None None.

(** ** JavaScript numbers *)

(** [!x] on a number: [0], [-0] and [NaN] are falsy. *)
Definition falsy (x : float) : bool := (x =? 0)%float || is_nan x.

(** Mongoose's cast of a value assigned to a [Number] path: it refuses
    [NaN] (and accepts the infinities); the document then fails validation
    when it is saved. *)
Definition castNumber (x : float) : bool := negb (is_nan x).

(** ** models/User.js: the entitlement evaluator *)

(** [this.subscription.status === 'trial' && new Date() < this.subscription.trialEndsAt] *)
Definition isTrialActive (u : User) (now : Z) : bool :=
  bool_decide (status (subscription u) = trial)
  && (now <? trialEndsAt (subscription u)).

(** [this.subscription.status === 'active' || this.isTrialActive()] *)
Definition isSubscriptionActive (u : User) (now : Z) : bool :=
  bool_decide (status (subscription u) = active) || isTrialActive u now.

(** The object literal [planLimits]. *)
Definition planLimits (p : Plan) : option Z :=
  match p with
  | free => Some 1
  | starter => Some 1
  | pro => Some (-1)
  end.

Definition isSome {A} (o : option A) : bool :=
  match o with Some _ => true | None => false end.

(** [x || 0] on an optional number: [undefined] and [0] are falsy. *)
Definition or_zero (x : option Z) : Z :=
  match x with
  | Some v => if v =? 0 then 0 else v
  | None => 0
  end.

Definition getMaxInstances (u : User) (now : Z) : Z :=
  if negb (isSubscriptionActive u now) then 0
  else match maxInstances (subscription u) with
       | Some m => m
       | None => or_zero (planLimits (plan (subscription u)))
       end.

(** The instance collection, keyed by [_id]. *)
Abbreviation InstanceColl := (gmap nat Instance).

(** The query [{ userId: uid, deletedAt: null }]. *)
Definition q_live (uid : nat) (i : Instance) : bool :=
  bool_decide (userId i = uid) && bool_decide (deletedAt i = None).

(** The query [{ userId: uid, deletedAt: null,
                 status: { $nin: ['deleting', 'error'] } }]. *)
Definition q_live_nonterminal (uid : nat) (i : Instance) : bool :=
  bool_decide (userId i = uid) && bool_decide (deletedAt i = None)
  && negb (bool_decide (inst_status i = deleting)
           || bool_decide (inst_status i = error)).

(** [Instance.find(q)]: the matching documents, as in-memory copies. *)
Definition find (q : Instance -> bool) (c : InstanceColl) : list Instance :=
  List.filter q (map_to_list c).*2.

(** [Instance.countDocuments(q)]. *)
Definition countDocuments (q : Instance -> bool) (c : InstanceColl) : Z :=
  Z.of_nat (length (find q c)).

Definition canCreateInstance (c : InstanceColl) (u : User) (now : Z) : bool :=
  if negb (isSubscriptionActive u now) then false
  else
    let maxInstances := getMaxInstances u now in
    if maxInstances =? -1 then true
    else
      let instanceCount := countDocuments (q_live (user_id u)) c in
      instanceCount <? maxInstances.

(** [upgradeToPro], the mutation of the document (the caller saves it). *)
Definition upgradeToPro (u : User) : User :=
  with_subscription
    (fun s => set_price 19.99%float (set_maxInstances (Some (-1)) (set_plan pro s))) u.

(** [30 * 24 * 60 * 60 * 1000] milliseconds. *)
Definition thirty_days : Z := 30 * 24 * 60 * 60 * 1000.

(** [startPaidSubscription], the mutation of the document. *)
Definition startPaidSubscription (u : User) (now : Z) : User :=
  with_subscription
    (fun s => set_nextBillingDate (Some (now + thirty_days)) (set_status active s)) u.

(** [hasAffiliateAccess] *)
Definition hasAffiliateAccess (u : User) : bool :=
  bool_decide (affiliateStatus u = aff_active).

(** ** middleware/auth.js: checkInstanceLimit *)

Inductive LimitResponse :=
| SubscriptionExpired (subscriptionStatus : SubStatus) (trialEnded : bool)
| LimitReached (currentCount maxAllowed : Z) (p : Plan) (upgradeAvailable : bool)
| Next.

Definition checkInstanceLimit (c : InstanceColl) (u : User) (now : Z) : LimitResponse :=
  if negb (isSubscriptionActive u now) then
    SubscriptionExpired (status (subscription u)) (negb (isTrialActive u now))
  else if negb (canCreateInstance c u now) then
    let userInstanceCount := countDocuments (q_live_nonterminal (user_id u)) c in
    let maxInstances := getMaxInstances u now in
    LimitReached userInstanceCount maxInstances (plan (subscription u))
      (bool_decide (plan (subscription u) = starter))
  else Next.

(** ** models/Instance.js: schema validation and persistence *)

(** The [enum] of the [status] path of [instanceSchema]. *)
Definition statusEnum : list InstanceStatus :=
  [deploying; running; stopped; error; deleting].

(** The validator Mongoose runs on the document before writing it. *)
Definition validateInstance (i : Instance) : bool :=
  bool_decide (inst_status i ∈ statusEnum).

(** What a handler can have thrown at it.  [CommitError] is a failure of
    [session.commitTransaction()], [TransactionError] the driver's refusal
    of a session operation that is not allowed in the state of the
    transaction, [ReferralError] the [Error] thrown by [applyReferral]. *)
Inductive Exn :=
| ValidationError
| PersistenceError
| NotFoundError
| CommitError
| TransactionError
| ReferralError.

(** [instance.save()]: validate, then write the schema paths of the
    document under its [_id]. *)
Definition saveInstance (c : InstanceColl) (i : Instance) : Exn + InstanceColl :=
  if validateInstance i then inr (<[inst_id i := stored_instance i]> c)
  else inl ValidationError.

(** [updateStatus(newStatus)] and [softDelete()]. *)
Definition updateStatus (c : InstanceColl) (i : Instance) (newStatus : InstanceStatus)
  : Exn + InstanceColl :=
  saveInstance c (set_inst_status newStatus i).

Definition softDelete (c : InstanceColl) (i : Instance) (now : Z) : Exn + InstanceColl :=
  saveInstance c
    (mkInstance (inst_id i) (userId i) deleting (Some now) (disabledAt i)
       (disabledReason i) (enabledAt i) (enabledReason i)).

(** ** The persistent store *)

Record Referral := mkReferral {
  ref_user : nat;
  ref_active : bool;
  lifetimeValue : float;
  commissionEarned : float
}.

(** An affiliate document.  [referralCode] is a required path of the schema;
    it is [None] on a document built without one. *)
Record Affiliate := mkAffiliate {
  aff_user : nat;
  referralCode : option string;
  totalEarnings : float;
  pendingEarnings : float;
  referrals : list Referral
}.

(** The three collections.  Users and instances are keyed by [_id];
    affiliates by their [user] path, which carries a unique index. *)
Record Store := mkStore {
  users : gmap nat User;
  instances : gmap nat Instance;
  affiliates : gmap nat Affiliate
}.

Definition set_users (m : gmap nat User) (st : Store) : Store :=
  mkStore m (instances st) (affiliates st).
Definition set_instances (m : gmap nat Instance) (st : Store) : Store :=
  mkStore (users st) m (affiliates st).
Definition set_affiliates (m : gmap nat Affiliate) (st : Store) : Store :=
  mkStore (users st) (instances st) m.

(** [user.save()] outside a session: the schema paths of the document are
    written under its [_id].  The subscription enums are types here, so the
    validators of the paths the model keeps always pass; the cast of an
    assigned [price] is checked where a handler assigns a computed one
    ([processSuccessfulPayment]). *)
Definition saveUser (st : Store) (u : User) : Store :=
  set_users (<[user_id u := stored_user u]> (users st)) st.


(** ** Handlers as state-and-exception computations

    A handler runs over the store and either returns a value or throws; the
    store it leaves holds the writes made until then. *)

Definition M (A : Type) : Type := Store -> (Exn + A) * Store.

Definition ret {A} (a : A) : M A := fun st => (inr a, st).

Definition bind {A B} (m : M A) (k : A -> M B) : M B :=
  fun st =>
    match m st with
    | (inr a, st') => k a st'
    | (inl e, st') => (inl e, st')
    end.

Definition throw {A} (e : Exn) : M A := fun st => (inl e, st).

(** [try { m } catch (error) { h error }] *)
Definition try_catch {A} (m : M A) (h : Exn -> M A) : M A :=
  fun st =>
    match m st with
    | (inr a, st') => (inr a, st')
    | (inl e, st') => h e st'
    end.

Definition get_store : M Store := fun st => (inr st, st).

Notation "x <- m ;; k" := (bind m (fun x => k))
  (at level 100, m at next level, right associativity, only parsing).
Notation "m ;;; k" := (bind m (fun _ => k))
  (at level 100, right associativity, only parsing).

(** [for (const x of l) { await body(x) }] *)
Fixpoint for_each {A} (l : list A) (body : A -> M unit) : M unit :=
  match l with
  | [] => ret tt
  | x :: l' => body x ;;; for_each l' body
  end.

(** [Instance.find(q)] and [instance.save()] on the store. *)
Definition findInstances (q : Instance -> bool) : M (list Instance) :=
  fun st => (inr (find q (instances st)), st).

Definition saveInstanceM (i : Instance) : M unit :=
  fun st =>
    match saveInstance (instances st) i with
    | inr c => (inr tt, set_instances c st)
    | inl e => (inl e, st)
    end.

Definition saveUserM (u : User) : M unit := fun st => (inr tt, saveUser st u).

Definition findUserById (uid : nat) : M (option User) :=
  fun st => (inr (users st !! uid), st).

(** ** services/trialService.js *)

(** The three assignments made after a successful disable call. *)
Definition mark_disabled (now : Z) (i : Instance) : Instance :=
  mkInstance (inst_id i) (userId i) disabled (deletedAt i) (Some now)
    (Some "Trial expired"%string) (enabledAt i) (enabledReason i).

(** The three assignments made after a successful enable call. *)
Definition mark_enabled (now : Z) (i : Instance) : Instance :=
  mkInstance (inst_id i) (userId i) running (deletedAt i) (disabledAt i)
    (disabledReason i) (Some now) (Some "Payment received"%string).

(** The gateway: [gw id] is the [success] flag of the call issued while
    instance [id] is being processed. *)
Abbreviation Gateway := (nat -> bool).

(** [handleExpiredTrial(user)].  The [catch] logs the exception and returns,
    so the statements after the throwing one are skipped. *)
Definition handleExpiredTrial (disableResult : Gateway) (now : Z) (user : User) : M unit :=
  try_catch
    (userInstances <- findInstances (q_live_nonterminal (user_id user)) ;;
     for_each userInstances (fun instance =>
       if disableResult (inst_id instance) then
         saveInstanceM (mark_disabled now instance)
       else ret tt) ;;;
     saveUserM
       (with_subscription (fun s => set_expiredAt (Some now) (set_status expired s)) user))
    (fun _ => ret tt).

(** The query [{ 'subscription.status': 'trial',
                 'subscription.trialEndsAt': { $lt: now } }]. *)
Definition q_expired_trial (now : Z) (u : User) : bool :=
  bool_decide (status (subscription u) = trial)
  && (trialEndsAt (subscription u) <? now).

(** [checkExpiredTrials]: one tick. *)
Definition checkExpiredTrials (disableResult : Gateway) (now : Z) : M unit :=
  try_catch
    (st <- get_store ;;
     let expiredTrialUsers :=
       List.filter (q_expired_trial now) (map_to_list (users st)).*2 in
     for_each expiredTrialUsers (handleExpiredTrial disableResult now))
    (fun _ => ret tt).

(** The query [{ userId: uid, deletedAt: null, status: 'disabled' }]. *)
Definition q_disabled (uid : nat) (i : Instance) : bool :=
  bool_decide (userId i = uid) && bool_decide (deletedAt i = None)
  && bool_decide (inst_status i = disabled).

(** The result object of [enableUserInstances]:
    [{ success: true, enabledInstances }] or [{ success: false, error }]. *)
Inductive EnableResult := EnableOk (enabledInstances : nat) | EnableFailed (e : Exn).

Definition enableUserInstances (enableResult : Gateway) (now : Z) (uid : nat)
  : M EnableResult :=
  try_catch
    (user <- findUserById uid ;;
     match user with
     | None => throw NotFoundError
     | Some _ =>
         disabledInstances <- findInstances (q_disabled uid) ;;
         for_each disabledInstances (fun instance =>
           if enableResult (inst_id instance) then
             saveInstanceM (mark_enabled now instance)
           else ret tt) ;;;
         ret (EnableOk (length disabledInstances))
     end)
    (fun e => ret (EnableFailed e)).

(** ** Subscription routes: commission and payment processing *)

(** Persistence faults of one handler run: [true] makes the named operation
    throw.  The payment handlers are modelled with them because their error
    paths (the [catch] blocks and [abortTransaction]) are what is specified. *)
Record Faults := mkFaults {
  f_startPaid_save : bool;   (* the save inside [startPaidSubscription] *)
  f_referrer_save : bool;    (* [referrer.save()] *)
  f_affiliate_save : bool;   (* [affiliate.save()] *)
  f_user_save : bool;        (* [user.save({ session })] *)
  f_commit : bool            (* [session.commitTransaction()]: nothing is committed *)
}.

Definition no_faults : Faults := mkFaults false false false false false.

Definition fails (b : bool) : M unit :=
  if b then throw PersistenceError else ret tt.

(** The validators of [AffiliateSchema] on the paths the model keeps:
    [referralCode] is [required] (Mongoose validates before it runs the
    schema's own [pre('save')] hook, so the hook that would generate a code
    does not run on a document that lacks one), and the [Number] paths,
    which the commission code assigns computed values to, must have passed
    the cast. *)
Definition validateAffiliate (a : Affiliate) : bool :=
  isSome (referralCode a)
  && castNumber (totalEarnings a) && castNumber (pendingEarnings a)
  && forallb (fun r => castNumber (lifetimeValue r) && castNumber (commissionEarned r))
       (referrals a).

Definition findAffiliate (uid : nat) : M (option Affiliate) :=
  fun st => (inr (affiliates st !! uid), st).

(** [affiliate.save()], outside any session. *)
Definition saveAffiliateM (f : Faults) (a : Affiliate) : M unit :=
  if negb (validateAffiliate a) then throw ValidationError
  else
    fails (f_affiliate_save f) ;;;
    fun st => (inr tt, set_affiliates (<[aff_user a := a]> (affiliates st)) st).

(** [referrer.save()], outside any session. *)
Definition saveReferrerM (f : Faults) (u : User) : M unit :=
  fails (f_referrer_save f) ;;; saveUserM u.

(** The object returned by [processAffiliateCommission]. *)
Record CommissionResult := mkCommissionResult {
  referrerId : nat;
  commission : float;
  transactionId : string
}.

(** [affiliate.referrals.find(ref => ref.user == user._id)] followed by the
    in-place update of the entry found (the first one of that user);
    [None] when there is no such entry. *)
Fixpoint update_referral (uid : nat) (amount commission : float) (l : list Referral)
  : option (list Referral) :=
  match l with
  | [] => None
  | r :: l' =>
      if bool_decide (ref_user r = uid) then
        Some (mkReferral (ref_user r) true (lifetimeValue r + amount)%float
                (commissionEarned r + commission)%float :: l')
      else option_map (cons r) (update_referral uid amount commission l')
  end.

Definition set_referrals (l : list Referral) (a : Affiliate) : Affiliate :=
  mkAffiliate (aff_user a) (referralCode a) (totalEarnings a) (pendingEarnings a) l.

(** [affiliate.totalEarnings += c; affiliate.pendingEarnings += c] *)
Definition add_earnings (c : float) (a : Affiliate) : Affiliate :=
  mkAffiliate (aff_user a) (referralCode a) (totalEarnings a + c)%float
    (pendingEarnings a + c)%float (referrals a).

(** [referrer.referralStats.activeReferrals += 1] *)
Definition incr_activeReferrals (u : User) : User :=
  mkUser (user_id u) (referredBy u) (affiliateStatus u) (activeReferrals u + 1)
    (subscription u).

(** [processAffiliateCommission(user, amount, transactionId)].  None of its
    reads and writes carries the caller's session.  The commission is
    [(amount * 20) / 100] in binary64 arithmetic. *)
Definition processAffiliateCommission (f : Faults) (user : User) (amount : float)
    (txid : string) : M (option CommissionResult) :=
  match referredBy user with
  | None => ret None
  | Some r =>
      try_catch
        (referrer <- findUserById r ;;
         match referrer with
         | None => ret None
         | Some referrer =>
             if negb (hasAffiliateAccess referrer) then ret None
             else
               found <- findAffiliate (user_id referrer) ;;
               affiliate <-
                 match found with
                 | Some a => ret a
                 | None =>
                     let a := mkAffiliate (user_id referrer) None 0%float 0%float [] in
                     saveAffiliateM f a ;;; ret a
                 end ;;
               let commission := (amount * 20 / 100)%float in
               let affiliate := add_earnings commission affiliate in
               affiliate <-
                 match update_referral (user_id user) amount commission
                         (referrals affiliate) with
                 | Some l => ret (set_referrals l affiliate)
                 | None =>
                     let affiliate :=
                       set_referrals
                         (referrals affiliate
                            ++ [mkReferral (user_id user) true amount commission])
                         affiliate in
                     saveReferrerM f (incr_activeReferrals referrer) ;;;
                     ret affiliate
                 end ;;
               saveAffiliateM f affiliate ;;;
               ret (Some (mkCommissionResult (user_id referrer) commission txid))
         end)
        (fun _ => ret None)
  end.

(** HTTP answers of the two transactional handlers.  A run that ends in
    [inl] has sent none: the handler threw. *)
Inductive Response :=
| R200 (commissionProcessed : bool)
| R400
| R404
| R500.

Definition activate (now : Z) (s : Subscription) : Subscription :=
  set_nextBillingDate (Some (now + thirty_days)) (set_status active s).

(** The transaction id built by [/convert-to-paid]. *)
Definition sub_transactionId (uid : nat) (now : Z) : string :=
  ("sub_" +:+ pretty uid +:+ "_" +:+ pretty now)%string.

(** [session.commitTransaction()]: the document staged in the transaction
    reaches the store, or the commit fails and it does not. *)
Definition commitTransaction (f : Faults) (staged : User) : M unit :=
  if f_commit f then throw CommitError else saveUserM staged.

(** [session.abortTransaction()] in the [catch] block.  It drops what was
    staged.  Once [commitTransaction] has been called on the session the
    driver refuses it ("Cannot call abortTransaction after calling
    commitTransaction"), also when the commit itself failed.
    [commitTransaction] is the last statement of the [try] block that can
    throw, so the exception caught is a [CommitError] exactly when it had
    been called. *)
Definition abortTransaction (e : Exn) : M unit :=
  match e with
  | CommitError => throw TransactionError
  | _ => ret tt
  end.

(** [catch (error) { await session.abortTransaction(); res.status(500)... }]:
    when the [await] throws, the answer is never sent. *)
Definition abort_and_answer (e : Exn) : M Response :=
  abortTransaction e ;;; ret R500.

(** [router.post('/convert-to-paid')].  The user document is read in the
    session, so its saves are staged in the transaction: they reach the
    store at [commitTransaction] and are dropped by [abortTransaction]. *)
Definition convertToPaid (f : Faults) (now : Z) (uid : nat) : M Response :=
  try_catch
    (user <- findUserById uid ;;
     match user with
     | None => ret R404
     | Some user =>
         if negb (bool_decide (status (subscription user) = trial)) then ret R400
         else
           fails (f_startPaid_save f) ;;;
           let user := startPaidSubscription user now in
           let user := with_subscription (activate now) user in
           commissionResult <-
             match referredBy user with
             | Some _ =>
                 processAffiliateCommission f user (price (subscription user))
                   (sub_transactionId (user_id user) now)
             | None => ret None
             end ;;
           fails (f_user_save f) ;;;
           commitTransaction f user ;;;
           ret (R200 (isSome commissionResult))
     end)
    abort_and_answer.

(** The body of a payment webhook request.  [ev_userId] is [None] when the
    field is missing; [ev_amount] is a JSON number. *)
Record PaymentEvent := mkPaymentEvent {
  ev_userId : option nat;
  ev_amount : float;
  ev_transactionId : string
}.

(** [router.post('/webhook/payment')]. *)
Definition webhookPayment (f : Faults) (now : Z) (ev : PaymentEvent) : M Response :=
  try_catch
    (match ev_userId ev with
     | None => ret R400
     | Some userId =>
         if falsy (ev_amount ev) || bool_decide (ev_transactionId ev = ""%string)
         then ret R400
         else
           user <- findUserById userId ;;
           match user with
           | None => ret R404
           | Some user =>
               let user :=
                 with_subscription
                   (fun s => set_nextBillingDate (Some (now + thirty_days))
                               (set_lastPaymentDate (Some now) s)) user in
               commissionResult <-
                 match referredBy user with
                 | Some _ =>
                     processAffiliateCommission f user (ev_amount ev)
                       (ev_transactionId ev)
                 | None => ret None
                 end ;;
               fails (f_user_save f) ;;;
               commitTransaction f user ;;;
               ret (R200 (isSome commissionResult))
           end
     end)
    abort_and_answer.

(** ** routes/payments.js *)

Record PaymentResult := mkPaymentResult {
  pr_plan : Plan;
  pr_enabledInstances : option nat
}.

(** [user.save()] of a document whose [subscription.price] has just been
    assigned a computed value: the save is rejected when the cast of that
    value failed. *)
Definition savePricedUserM (u : User) : M unit :=
  if castNumber (price (subscription u)) then saveUserM u else throw ValidationError.

(** [processSuccessfulPayment(userId, transactionId, amount)]; [amount] is
    the value of [parseFloat(amount)], which is [NaN] for an input that
    does not start with a number.  Its [catch] rethrows. *)
Definition processSuccessfulPayment (enableResult : Gateway) (now : Z)
    (userId : nat) (txid : string) (amount : float) : M PaymentResult :=
  user <- findUserById userId ;;
  match user with
  | None => throw NotFoundError
  | Some user =>
      let plan := if (9.99 <=? amount)%float then pro else starter in
      let user :=
        with_subscription
          (fun s =>
             set_payments (payments s ++ [mkPayment txid amount now])
               (set_maxInstances (Some (if bool_decide (plan = pro) then 5 else 1))
                  (set_nextBillingDate (Some (now + thirty_days))
                     (set_price amount (set_status active (set_plan plan s))))))
          user in
      savePricedUserM user ;;;
      enableResult <- enableUserInstances enableResult now userId ;;
      ret (mkPaymentResult plan
             (match enableResult with
              | EnableOk n => Some n
              | EnableFailed _ => None
              end))
  end.

(** ** The upgrade route *)

Inductive UpgradeResponse :=
| UpgradeOk (p : Plan) (s : SubStatus) (pr : float) (maxInstances : Z)
| UpgradeAlreadyPro
| UpgradeUserNotFound
| UpgradeServerError.

(** [router.post('/upgrade-to-pro')] *)
Definition upgradeToProRoute (now : Z) (uid : nat) : M UpgradeResponse :=
  try_catch
    (user <- findUserById uid ;;
     match user with
     | None => ret UpgradeUserNotFound
     | Some user =>
         if bool_decide (plan (subscription user) = pro) then ret UpgradeAlreadyPro
         else
           let user := upgradeToPro user in
           saveUserM user ;;;
           ret (UpgradeOk (plan (subscription user)) (status (subscription user))
                  (price (subscription user)) (getMaxInstances user now))
     end)
    (fun _ => ret UpgradeServerError).

(** ** Reachable stores

    The stores the modelled operations build from the empty one.  Every
    route of the repository writes an instance through [save()],
    [updateStatus] or [softDelete], all of which are [saveInstance]. *)
Definition empty_store : Store := mkStore ∅ ∅ ∅.

Inductive step : Store -> Store -> Prop :=
| step_save_instance st i c :
    saveInstance (instances st) i = inr c -> step st (set_instances c st)
| step_save_user st u : step st (saveUser st u)
| step_save_affiliate st a :
    step st (set_affiliates (<[aff_user a := a]> (affiliates st)) st)
| step_trial st gw now : step st (snd (checkExpiredTrials gw now st))
| step_expire st gw now u : step st (snd (handleExpiredTrial gw now u st))
| step_enable st gw now uid : step st (snd (enableUserInstances gw now uid st))
| step_payment st gw now uid txid amount :
    step st (snd (processSuccessfulPayment gw now uid txid amount st))
| step_convert st f now uid : step st (snd (convertToPaid f now uid st))
| step_webhook st f now ev : step st (snd (webhookPayment f now ev st))
| step_upgrade st now uid : step st (snd (upgradeToProRoute now uid st)).

Inductive reachable : Store -> Prop :=
| reach_empty : reachable empty_store
| reach_step st st' : reachable st -> step st st' -> reachable st'.

(** The live-instance count the specification asks the quota check to use:
    instances of the user with [deletedAt = null] and a status outside
    {deleting, error}. *)
Definition currentLiveCount (c : InstanceColl) (u : User) : Z :=
  countDocuments (q_live_nonterminal (user_id u)) c.

(** Every user document sits under its own [_id], every affiliate document
    under its [user] and with the required [referralCode]. *)
Definition wf_store (st : Store) : Prop :=
  (forall k u, users st !! k = Some u -> user_id u = k)
  /\ (forall k a, affiliates st !! k = Some a ->
        aff_user a = k /\ validateAffiliate a = true).

(** [affiliate.referrals] has an entry of user [uid]. *)
Definition has_referral (uid : nat) (a : Affiliate) : bool :=
  existsb (fun r => bool_decide (ref_user r = uid)) (referrals a).

(** User [uid] (document [u]) was referred by [r] (document [ru]), who has
    affiliate access and the affiliate record [a]. *)
Definition commission_ready (st : Store) (uid r : nat) (u ru : User) (a : Affiliate)
  : Prop :=
  users st !! uid = Some u /\ user_id u = uid /\ referredBy u = Some r /\ r <> uid
  /\ users st !! r = Some ru /\ user_id ru = r /\ hasAffiliateAccess ru = true
  /\ affiliates st !! r = Some a /\ aff_user a = r /\ validateAffiliate a = true.

(** Every persisted instance passes the schema validators. *)
Definition instances_valid (st : Store) : Prop :=
  forall id i, instances st !! id = Some i -> inst_status i ∈ statusEnum.

(** A computation keeps a property of the store, whether it returns or
    throws. *)
Definition preserves {A} (P : Store -> Prop) (m : M A) : Prop :=
  forall st, P st -> P (snd (m st)).

(** ** Sample data *)

Definition sample_subscription (p : Plan) (s : SubStatus) (m : option Z) (ends : Z)
  : Subscription :=
  mkSubscription p s m 3.99%float ends None None None [].

Definition sample_user (uid : nat) (p : Plan) (s : SubStatus) (m : option Z) (ends : Z)
  : User :=
  mkUser uid None not_affiliate 0 (sample_subscription p s m ends).

Definition sample_instance (id uid : nat) (s : InstanceStatus) (del : option Z) : Instance :=
  mkInstance id uid s del None None None None.

(** A starter user with an active subscription and limit 1 whose only
    instance is live with status [error] (a failed deployment). *)
Definition quota_user : User := sample_user 1 starter active (Some 1) 10.
Definition quota_instances : InstanceColl := {[ 7%nat := sample_instance 7 1 error None ]}.

(** A user whose trial ended at time 10, with one running instance. *)
Definition trial_user : User := sample_user 1 starter trial (Some 1) 10.
Definition trial_store : Store :=
  mkStore {[ 1%nat := trial_user ]} {[ 7%nat := sample_instance 7 1 running None ]} ∅.

(** A paying user (id 1) referred by an active affiliate (id 2) whose
    affiliate record exists and has no referral yet. *)
Definition referred_user (s : SubStatus) : User :=
  mkUser 1 (Some 2%nat) not_affiliate 0 (sample_subscription starter s (Some 1) 10).
Definition referrer_user : User :=
  mkUser 2 None aff_active 0 (sample_subscription starter active (Some 1) 10).
Definition referrer_affiliate : Affiliate :=
  mkAffiliate 2 (Some "XB4CBA5Y"%string) 0%float 0%float [].
Definition referral_store (s : SubStatus) : Store :=
  mkStore {[ 1%nat := referred_user s; 2%nat := referrer_user ]} ∅
    {[ 2%nat := referrer_affiliate ]}.

(** A payment-confirmation event of amount 5 for user 1. *)
Definition sample_event : PaymentEvent :=
  mkPaymentEvent (Some 1%nat) 5%float "tx1"%string.

(** [totalEarnings] of the affiliate of user [r], 0 if there is none. *)
Definition earnings_of (st : Store) (r : nat) : float :=
  match affiliates st !! r with
  | Some a => totalEarnings a
  | None => 0%float
  end.

(** [pendingEarnings] of the affiliate of user [r], 0 if there is none. *)
Definition pending_of (st : Store) (r : nat) : float :=
  match affiliates st !! r with
  | Some a => pendingEarnings a
  | None => 0%float
  end.

(** [subscription.nextBillingDate] and [subscription.status] of user [uid]. *)
Definition billing_of (st : Store) (uid : nat) : option Z :=
  match users st !! uid with
  | Some u => nextBillingDate (subscription u)
  | None => None
  end.

Definition status_of (st : Store) (uid : nat) : option SubStatus :=
  option_map (fun u => status (subscription u)) (users st !! uid).

(** Number of entries of [referrals] of the affiliate of user [r], and the
    [activeReferrals] counter of user [r]. *)
Definition referral_count (st : Store) (r : nat) : nat :=
  match affiliates st !! r with
  | Some a => length (referrals a)
  | None => 0%nat
  end.

Definition activeReferrals_of (st : Store) (r : nat) : Z :=
  match users st !! r with
  | Some u => activeReferrals u
  | None => 0
  end.

(** Two deliveries of the same event to the webhook, at [now1] then [now2],
    and two calls of [processSuccessfulPayment] with the same arguments. *)
Definition webhook_once (now1 : Z) (ev : PaymentEvent) (st : Store) : Store :=
  snd (webhookPayment no_faults now1 ev st).
Definition webhook_twice (now1 now2 : Z) (ev : PaymentEvent) (st : Store) : Store :=
  snd (webhookPayment no_faults now2 ev (webhook_once now1 ev st)).

Definition payment_once (gw : Gateway) (now1 : Z) (uid : nat) (txid : string)
    (amount : float) (st : Store) : Store :=
  snd (processSuccessfulPayment gw now1 uid txid amount st).
Definition payment_twice (gw1 gw2 : Gateway) (now1 now2 : Z) (uid : nat)
    (txid : string) (amount : float) (st : Store) : Store :=
  snd (processSuccessfulPayment gw2 now2 uid txid amount
         (payment_once gw1 now1 uid txid amount st)).

(** The sample event delivered once at time 1000, and again at time 5000. *)
Definition delivered_once : Store :=
  webhook_once 1000 sample_event (referral_store active).
Definition delivered_twice : Store :=
  webhook_twice 1000 5000 sample_event (referral_store active).

(** ** Further methods of models/User.js and models/Instance.js *)

(** [this.subscription.plan === 'pro' && this.isSubscriptionActive()] *)
Definition hasProAccess (u : User) (now : Z) : bool :=
  bool_decide (plan (subscription u) = pro) && isSubscriptionActive u now.

(** The virtual [isActive]: [this.status === 'running' && !this.deletedAt]. *)
Definition isActive (i : Instance) : bool :=
  bool_decide (inst_status i = running) && negb (isSome (deletedAt i)).

Definition set_trialEndsAt (d : Z) (s : Subscription) : Subscription :=
  mkSubscription (plan s) (status s) (maxInstances s) (price s) d
    (nextBillingDate s) (lastPaymentDate s) (expiredAt s) (payments s).

(** [softDelete()] and [updateStatus()] on the store. *)
Definition softDeleteM (i : Instance) (now : Z) : M unit :=
  fun st =>
    match softDelete (instances st) i now with
    | inr c => (inr tt, set_instances c st)
    | inl e => (inl e, st)
    end.

Definition updateStatusM (i : Instance) (newStatus : InstanceStatus) : M unit :=
  fun st =>
    match updateStatus (instances st) i newStatus with
    | inr c => (inr tt, set_instances c st)
    | inl e => (inl e, st)
    end.

(** The document stored by [softDelete()] at time [now]. *)
Definition soft_deleted (i : Instance) (now : Z) : Instance :=
  mkInstance (inst_id i) (userId i) deleting (Some now) None None None None.

(** ** Subscription routes: the trial *)

(** An entry of [PRICING_PLANS]. *)
Record PlanConfig := mkPlanConfig {
  cfg_price : float;
  cfg_maxInstances : Z;
  cfg_trialDuration : Z
}.

(** The object literal [PRICING_PLANS]; it has no entry for ['free']. *)
Definition PRICING_PLANS (p : Plan) : option PlanConfig :=
  match p with
  | starter => Some (mkPlanConfig 3.99%float 1 (60 * 60 * 1000))
  | pro => Some (mkPlanConfig 19.99%float (-1) 0)
  | free => None
  end.

Inductive TrialResponse :=
| TrialStarted (p : Plan) (s : SubStatus) (ends : Z) (maxInstances : Z)
| TrialValidationFailed
| TrialUserNotFound
| TrialAlreadyActive
| TrialServerError.

(** The [referralCode] field of a [/start-trial] request as the handler
    meets it, after the validator [optional().isString().trim()]: absent or
    blank (the handler skips the referral branch); present but not a string
    (the validator refuses the request); or a non-blank string.  The model
    does not keep the [referralCode] path of the user documents, so a
    string is given by the answer of the query that [applyReferral] makes
    with it, [User.findOne({ referralCode: code.toUpperCase(),
    affiliateStatus: 'active' })]: the [_id] of the user found, if any.
    That answer is an argument, like the answers of the gateway. *)
Inductive ReferralCode := NoCode | NotAString | Code (referrer : option nat).

Definition set_referredBy (r : option nat) (u : User) : User :=
  mkUser (user_id u) r (affiliateStatus u) (activeReferrals u) (subscription u).

(** [applyReferral(referralCode)] of models/User.js: the document with
    [referredBy] set, or the exception thrown. *)
Definition applyReferral (user : User) (referrer : option nat) : Exn + User :=
  if isSome (referredBy user) || bool_decide (affiliateStatus user = aff_active)
  then inl ReferralError
  else match referrer with
       | None => inl ReferralError
       | Some rid => inr (set_referredBy (Some rid) user)
       end.

(** The referral branch of [/start-trial]:
    [if (referralCode) { try { await user.applyReferral(referralCode);
    await user.save(); } catch (err) { log } }].  It returns the document,
    changed or not. *)
Definition referralBranch (code : ReferralCode) (user : User) : M User :=
  match code with
  | Code referrer =>
      try_catch
        (match applyReferral user referrer with
         | inr user => saveUserM user ;;; ret user
         | inl e => throw e
         end)
        (fun _ => ret user)
  | _ => ret user
  end.

(** [router.post('/start-trial')].  The validator admits the plans
    ['starter'] and ['pro'] and a [referralCode] that is a string.  The
    referral branch runs, with a [user.save()] of its own, before the
    subscription is looked at. *)
Definition startTrialRequest (code : ReferralCode) (now : Z) (uid : nat) (p : Plan)
  : M TrialResponse :=
  try_catch
    (if negb (bool_decide (p ∈ [starter; pro]))
        || match code with NotAString => true | _ => false end
     then ret TrialValidationFailed
     else
       user <- findUserById uid ;;
       match user with
       | None => ret TrialUserNotFound
       | Some user =>
           user <- referralBranch code user ;;
           if isSubscriptionActive user now
              && bool_decide (plan (subscription user) = p)
           then ret TrialAlreadyActive
           else
             match PRICING_PLANS p with
             | None => ret TrialServerError   (* a TypeError, caught below *)
             | Some planConfig =>
                 let user :=
                   with_subscription
                     (fun s =>
                        set_trialEndsAt (now + cfg_trialDuration planConfig)
                          (set_maxInstances (Some (cfg_maxInstances planConfig))
                             (set_price (cfg_price planConfig)
                                (set_status trial (set_plan p s)))))
                     user in
                 saveUserM user ;;;
                 ret (TrialStarted (plan (subscription user))
                        (status (subscription user))
                        (trialEndsAt (subscription user))
                        (getMaxInstances user now))
             end
       end)
    (fun _ => ret TrialServerError).

(** A request that carries no [referralCode]. *)
Definition startTrial (now : Z) (uid : nat) (p : Plan) : M TrialResponse :=
  startTrialRequest NoCode now uid p.

(** The store after the referral branch of a request of user [u]. *)
Definition after_referral (code : ReferralCode) (u : User) (st : Store) : Store :=
  match code with
  | Code referrer =>
      match applyReferral u referrer with
      | inr u' => saveUser st u'
      | inl _ => st
      end
  | _ => st
  end.

(** ** routes/users.js: the usage report *)

(** The [usage] object of [GET /subscription], for a stored
    [subscription.maxInstances] that is a number:
    [remainingInstances = Math.max(0, maxInstances - instanceCount)]. *)
Record Usage := mkUsage {
  usage_currentInstances : Z;
  usage_maxInstances : Z;
  usage_remainingInstances : Z
}.

Definition subscriptionUsage (c : InstanceColl) (u : User) : option Usage :=
  let instanceCount := countDocuments (q_live_nonterminal (user_id u)) c in
  match maxInstances (subscription u) with
  | Some m => Some (mkUsage instanceCount m (Z.max 0 (m - instanceCount)))
  | None => None
  end.

(** ** routes/instances.js and routes/api.js: deployment and deletion

    The documents of the model carry neither [name] nor the deployment
    settings, so the requests are taken as valid, and the answer of the
    duplicate-name query of the deployment route is an argument
    ([nameTaken]), like the answers of the gateway.  [req.user] is the
    document attached by the authentication middleware. *)

(** [Instance.findOne({ _id: id, userId: uid, deletedAt: null })] *)
Definition findOwnedInstance (id uid : nat) : M (option Instance) :=
  fun st =>
    (inr (match instances st !! id with
          | Some i => if q_live uid i then Some i else None
          | None => None
          end), st).

Inductive DeleteResponse :=
| DeleteOk
| DeleteNotFound
| DeleteFailed
| DeleteServerError.

(** [router.delete('/:id')] of routes/instances.js. *)
Definition deleteInstanceRoute (deleteResult : bool) (now : Z) (user : User)
    (id : nat) : M DeleteResponse :=
  try_catch
    (instance <- findOwnedInstance id (user_id user) ;;
     match instance with
     | None => ret DeleteNotFound
     | Some instance =>
         let instance := set_inst_status deleting instance in
         saveInstanceM instance ;;;
         if deleteResult then
           softDeleteM instance now ;;; ret DeleteOk
         else
           let instance := set_inst_status error instance in
           saveInstanceM instance ;;; ret DeleteFailed
     end)
    (fun _ => ret DeleteServerError).

(** [router.delete('/instances/:id')] of routes/api.js. *)
Definition apiDeleteInstanceRoute (deleteResult : bool) (now : Z) (user : User)
    (id : nat) : M DeleteResponse :=
  try_catch
    (instance <- findOwnedInstance id (user_id user) ;;
     match instance with
     | None => ret DeleteNotFound
     | Some instance =>
         if deleteResult then
           softDeleteM instance now ;;; ret DeleteOk
         else ret DeleteFailed
     end)
    (fun _ => ret DeleteServerError).

Inductive DeployResponse :=
| Deployed                       (* 201 *)
| DeployFailed                   (* the gateway refused *)
| DeployNameExists               (* 409 *)
| DeployForbidden (r : LimitResponse)   (* 403 from [checkInstanceLimit] *)
| DeployServerError.

(** [new Instance({ userId, ..., status: 'deploying' })] with the fresh
    [_id] that Mongoose gives it. *)
Definition new_instance (newId uid : nat) : Instance :=
  mkInstance newId uid deploying None None None None None.

(** [router.post('/deploy')] of routes/instances.js, behind
    [checkInstanceLimit]. *)
Definition deployRoute (nameTaken deployResult : bool) (newId : nat) (now : Z)
    (user : User) : M DeployResponse :=
  st <- get_store ;;
  match checkInstanceLimit (instances st) user now with
  | Next =>
      try_catch
        (if nameTaken then ret DeployNameExists
         else
           let instance := new_instance newId (user_id user) in
           saveInstanceM instance ;;;
           if deployResult then
             saveInstanceM (set_inst_status running instance) ;;; ret Deployed
           else
             saveInstanceM (set_inst_status error instance) ;;; ret DeployFailed)
        (fun _ => ret DeployServerError)
  | r => ret (DeployForbidden r)
  end.

(** ** Statements about the trial tick and the commission *)

(** The user document that [handleExpiredTrial] stores: the status is
    [expired]; the [expiredAt] that the handler also assigns is not a schema
    path, so the time of the expiry is not stored. *)
Definition expire (u : User) : User :=
  stored_user (with_subscription (set_status expired) u).

(** No disable call of a run of [handleExpiredTrial] for [u] succeeds. *)
Definition disable_all_failed (gw : Gateway) (c : InstanceColl) (u : User) : bool :=
  negb (existsb (fun i => gw (inst_id i)) (find (q_live_nonterminal (user_id u)) c)).

(** What one tick makes of a user document. *)
Definition tick_user (gw : Gateway) (now : Z) (c : InstanceColl) (u : User) : User :=
  if q_expired_trial now u && disable_all_failed gw c u then expire u else u.

(** Every user document sits under its own [_id]. *)
Definition wf_users (st : Store) : Prop :=
  forall k u, users st !! k = Some u -> user_id u = k.

(** Every instance document sits under its own [_id]. *)
Definition wf_instances (c : InstanceColl) : Prop :=
  forall k i, c !! k = Some i -> inst_id i = k.

(** The affiliate document after one successful run of
    [processAffiliateCommission] for user [uid]. *)
Definition apply_commission (uid : nat) (amount : float) (a : Affiliate) : Affiliate :=
  let c := (amount * 20 / 100)%float in
  let a1 := add_earnings c a in
  match update_referral uid amount c (referrals a1) with
  | Some l => set_referrals l a1
  | None => set_referrals (referrals a1 ++ [mkReferral uid true amount c]) a1
  end.

(** [referrals.find(ref => ref.user == uid)]: the first entry of user
    [uid], and the entries of the other users. *)
Definition find_referral (uid : nat) (l : list Referral) : option Referral :=
  List.find (fun r => bool_decide (ref_user r = uid)) l.

Definition other_referrals (uid : nat) (l : list Referral) : list Referral :=
  List.filter (fun r => negb (bool_decide (ref_user r = uid))) l.

(** 1 or 0. *)
Definition b2z (b : bool) : Z := if b then 1 else 0.

(** The plan [processSuccessfulPayment] derives from the amount, and the
    user document it builds in memory and saves. *)
Definition plan_of_amount (amount : float) : Plan :=
  if (9.99 <=? amount)%float then pro else starter.

Definition after_payment (now : Z) (txid : string) (amount : float) (u : User) : User :=
  with_subscription
    (fun s =>
       set_payments (payments s ++ [mkPayment txid amount now])
         (set_maxInstances
            (Some (if bool_decide (plan_of_amount amount = pro) then 5 else 1))
            (set_nextBillingDate (Some (now + thirty_days))
               (set_price amount (set_status active (set_plan (plan_of_amount amount) s))))))
    u.

(** The user document saved by [/start-trial]. *)
Definition trial_started (now : Z) (p : Plan) (cfg : PlanConfig) (u : User) : User :=
  with_subscription
    (fun s =>
       set_trialEndsAt (now + cfg_trialDuration cfg)
         (set_maxInstances (Some (cfg_maxInstances cfg))
            (set_price (cfg_price cfg) (set_status trial (set_plan p s)))))
    u.

(** The user document staged by [/webhook/payment]. *)
Definition webhook_paid (now : Z) (u : User) : User :=
  with_subscription
    (fun s => set_nextBillingDate (Some (now + thirty_days))
                (set_lastPaymentDate (Some now) s)) u.

(** * Properties *)

(** ** Entitlement evaluator *)

Lemma isTrialActive_true_iff (u : User) (now : Z) :
  isTrialActive u now = true
  <-> status (subscription u) = trial /\ now < trialEndsAt (subscription u).
Proof.
  unfold isTrialActive.
  rewrite andb_true_iff, bool_decide_eq_true, Z.ltb_lt. reflexivity.
Qed.

Lemma isSubscriptionActive_true_iff (u : User) (now : Z) :
  isSubscriptionActive u now = true
  <-> status (subscription u) = active
      \/ (status (subscription u) = trial /\ now < trialEndsAt (subscription u)).
Proof.
  unfold isSubscriptionActive.
  rewrite orb_true_iff, bool_decide_eq_true, isTrialActive_true_iff. reflexivity.
Qed.

Lemma isSubscriptionActive_false_iff (u : User) (now : Z) :
  isSubscriptionActive u now = false
  <-> ~ (status (subscription u) = active
         \/ (status (subscription u) = trial /\ now < trialEndsAt (subscription u))).
Proof.
  rewrite <- isSubscriptionActive_true_iff.
  destruct (isSubscriptionActive u now); split; intros H; congruence.
Qed.

(** C8.  For a subscription with status [trial], [isTrialActive] holds
    exactly when [now < trialEndsAt], so it is false at [trialEndsAt] and at
    every later time; for any other status it is false. *)
Theorem isTrialActive_spec (u : User) (now : Z) :
  (status (subscription u) = trial ->
     (isTrialActive u now = true <-> now < trialEndsAt (subscription u))
     /\ (trialEndsAt (subscription u) <= now -> isTrialActive u now = false))
  /\ (status (subscription u) <> trial -> isTrialActive u now = false).
Proof.
  split.
  - intros Ht. split.
    + rewrite isTrialActive_true_iff. tauto.
    + intros Hle. apply not_true_is_false.
      rewrite isTrialActive_true_iff. lia.
  - intros Hne. apply not_true_is_false.
    rewrite isTrialActive_true_iff. tauto.
Qed.

Lemma isTrialActive_spec_witness :
  isTrialActive (sample_user 1 starter trial (Some 1) 3600000) 3599999 = true
  /\ isTrialActive (sample_user 1 starter trial (Some 1) 3600000) 3600000 = false
  /\ isTrialActive (sample_user 1 starter active (Some 1) 3600000) 0 = false.
Proof.
  split; [|split].
  - destruct (isTrialActive_spec (sample_user 1 starter trial (Some 1) 3600000) 3599999)
      as [Ht _].
    destruct (Ht eq_refl) as [Hiff _]. apply Hiff. simpl. lia.
  - destruct (isTrialActive_spec (sample_user 1 starter trial (Some 1) 3600000) 3600000)
      as [Ht _].
    destruct (Ht eq_refl) as [_ Hle]. apply Hle. simpl. lia.
  - destruct (isTrialActive_spec (sample_user 1 starter active (Some 1) 3600000) 0)
      as [_ Hnt].
    apply Hnt. simpl. discriminate.
Defined.

(** C9.  The computed [maxInstances] is 0 when the subscription is not
    active (neither status [active] nor an unexpired trial); when it is
    active, it is the stored field if that is set, and otherwise the plan
    default: 1 for [starter], -1 for [pro]. *)
Theorem getMaxInstances_spec (u : User) (now : Z) :
  let active_now :=
    status (subscription u) = active
    \/ (status (subscription u) = trial /\ now < trialEndsAt (subscription u)) in
  (~ active_now -> getMaxInstances u now = 0)
  /\ (active_now ->
        forall m, maxInstances (subscription u) = Some m -> getMaxInstances u now = m)
  /\ (active_now -> maxInstances (subscription u) = None ->
        (plan (subscription u) = starter -> getMaxInstances u now = 1)
        /\ (plan (subscription u) = pro -> getMaxInstances u now = -1)).
Proof.
  intros active_now. unfold getMaxInstances. split; [|split].
  - intros Hn. apply isSubscriptionActive_false_iff in Hn. rewrite Hn. reflexivity.
  - intros Ha m Hm. apply isSubscriptionActive_true_iff in Ha.
    rewrite Ha, Hm. reflexivity.
  - intros Ha Hm. apply isSubscriptionActive_true_iff in Ha.
    rewrite Ha, Hm. split; intros Hp; rewrite Hp; reflexivity.
Qed.

Lemma getMaxInstances_spec_witness :
  getMaxInstances (sample_user 1 starter expired (Some 1) 10) 20 = 0
  /\ getMaxInstances (sample_user 1 starter active (Some 7) 10) 20 = 7
  /\ getMaxInstances (sample_user 1 starter trial None 10) 5 = 1
  /\ getMaxInstances (sample_user 1 pro active None 10) 20 = -1.
Proof.
  split; [|split; [|split]].
  - destruct (getMaxInstances_spec (sample_user 1 starter expired (Some 1) 10) 20)
      as (H0 & _ & _).
    apply H0. simpl. intros [H | [H _]]; discriminate H.
  - destruct (getMaxInstances_spec (sample_user 1 starter active (Some 7) 10) 20)
      as (_ & Hs & _).
    apply Hs; simpl; [left; reflexivity | reflexivity].
  - destruct (getMaxInstances_spec (sample_user 1 starter trial None 10) 5)
      as (_ & _ & Hd).
    apply Hd; simpl; [right; split; [reflexivity | lia] | reflexivity | reflexivity].
  - destruct (getMaxInstances_spec (sample_user 1 pro active None 10) 20)
      as (_ & _ & Hd).
    apply Hd; simpl; [left; reflexivity | reflexivity | reflexivity].
Defined.

(** The fallback table also has the legacy plan [free], with limit 1. *)
Lemma getMaxInstances_free (u : User) (now : Z) :
  isSubscriptionActive u now = true ->
  maxInstances (subscription u) = None ->
  plan (subscription u) = free ->
  getMaxInstances u now = 1.
Proof.
  intros Ha Hm Hp. unfold getMaxInstances. rewrite Ha, Hm, Hp. reflexivity.
Qed.

(** A narrower query matches no more documents. *)
Lemma filter_length_le {A} (p q : A -> bool) (l : list A) :
  (forall x, p x = true -> q x = true) ->
  (length (List.filter p l) <= length (List.filter q l))%nat.
Proof.
  intros Hpq. induction l as [|x l IH]; simpl; [lia|].
  destruct (p x) eqn:Hp.
  - rewrite (Hpq x Hp). simpl. lia.
  - destruct (q x); simpl; lia.
Qed.

Lemma q_live_nonterminal_live (uid : nat) (i : Instance) :
  q_live_nonterminal uid i = true -> q_live uid i = true.
Proof.
  unfold q_live_nonterminal, q_live. rewrite !andb_true_iff. tauto.
Qed.

Lemma currentLiveCount_le (c : InstanceColl) (u : User) :
  currentLiveCount c u <= countDocuments (q_live (user_id u)) c.
Proof.
  unfold currentLiveCount, countDocuments, find.
  apply Nat2Z.inj_le, filter_length_le, q_live_nonterminal_live.
Qed.

(** What the method decides, exactly: the count it uses is the one of the
    query [{ userId, deletedAt: null }]. *)
Lemma canCreateInstance_true_iff (c : InstanceColl) (u : User) (now : Z) :
  canCreateInstance c u now = true
  <-> isSubscriptionActive u now = true
      /\ (getMaxInstances u now = -1
          \/ countDocuments (q_live (user_id u)) c < getMaxInstances u now).
Proof.
  unfold canCreateInstance.
  destruct (isSubscriptionActive u now); cbn [negb].
  - destruct (Z.eqb_spec (getMaxInstances u now) (-1)) as [He|Hne].
    + split; [intros _; split; [reflexivity | left; exact He] | reflexivity].
    + rewrite Z.ltb_lt. split.
      * intros Hlt. split; [reflexivity | right; exact Hlt].
      * intros [_ [He | Hlt]]; [contradiction | exact Hlt].
  - split; [discriminate | intros [H _]; discriminate H].
Qed.

(** C10.  [canCreateInstance] is false for an inactive subscription whatever
    the instances are; it is true for every collection of instances when the
    computed [maxInstances] is -1; and for any other [maxInstances] it is
    false as soon as the live count (the specified one, or the one the method
    computes) has reached [maxInstances]. *)
Theorem canCreateInstance_spec (c : InstanceColl) (u : User) (now : Z) :
  (isSubscriptionActive u now = false -> canCreateInstance c u now = false)
  /\ (getMaxInstances u now = -1 -> canCreateInstance c u now = true)
  /\ (getMaxInstances u now <> -1 ->
        getMaxInstances u now <= currentLiveCount c u ->
        canCreateInstance c u now = false)
  /\ (getMaxInstances u now <> -1 ->
        getMaxInstances u now <= countDocuments (q_live (user_id u)) c ->
        canCreateInstance c u now = false).
Proof.
  assert (Hcode : getMaxInstances u now <> -1 ->
                  getMaxInstances u now <= countDocuments (q_live (user_id u)) c ->
                  canCreateInstance c u now = false).
  { intros Hne Hle. unfold canCreateInstance.
    destruct (isSubscriptionActive u now); simpl; [|reflexivity].
    apply Z.eqb_neq in Hne. rewrite Hne. apply Z.ltb_ge. exact Hle. }
  split; [|split; [|split]].
  - intros Hi. unfold canCreateInstance. rewrite Hi. reflexivity.
  - intros Hm. unfold canCreateInstance.
    destruct (isSubscriptionActive u now) eqn:Ha; simpl.
    + rewrite Hm. reflexivity.
    + unfold getMaxInstances in Hm. rewrite Ha in Hm. simpl in Hm. discriminate Hm.
  - intros Hne Hle. apply Hcode; [exact Hne|].
    pose proof (currentLiveCount_le c u). lia.
  - exact Hcode.
Qed.

Lemma canCreateInstance_spec_witness :
  canCreateInstance {[ 7%nat := sample_instance 7 1 running None ]}
    (sample_user 1 starter expired (Some 1) 10) 20 = false
  /\ canCreateInstance {[ 7%nat := sample_instance 7 1 running None ]}
       (sample_user 1 pro active (Some (-1)) 10) 20 = true
  /\ canCreateInstance {[ 7%nat := sample_instance 7 1 running None ]}
       (sample_user 1 starter active (Some 1) 10) 20 = false.
Proof.
  split; [|split].
  - destruct (canCreateInstance_spec {[ 7%nat := sample_instance 7 1 running None ]}
                (sample_user 1 starter expired (Some 1) 10) 20) as (H & _).
    apply H. reflexivity.
  - destruct (canCreateInstance_spec {[ 7%nat := sample_instance 7 1 running None ]}
                (sample_user 1 pro active (Some (-1)) 10) 20) as (_ & H & _).
    apply H. reflexivity.
  - destruct (canCreateInstance_spec {[ 7%nat := sample_instance 7 1 running None ]}
                (sample_user 1 starter active (Some 1) 10) 20) as (_ & _ & H & _).
    apply H; [discriminate | vm_compute; discriminate].
Defined.

(** C1 (failing input).  For [quota_user] and [quota_instances] the
    specified live count is 0, which is below the limit 1, yet
    [canCreateInstance] counts the [error] instance and refuses, and
    [checkInstanceLimit] answers "limit reached" with [currentCount = 0] and
    [maxAllowed = 1]. *)
Theorem canCreateInstance_counts_error_instances :
  currentLiveCount quota_instances quota_user = 0
  /\ getMaxInstances quota_user 20 = 1
  /\ countDocuments (q_live (user_id quota_user)) quota_instances = 1
  /\ canCreateInstance quota_instances quota_user 20 = false
  /\ checkInstanceLimit quota_instances quota_user 20 = LimitReached 0 1 starter true.
Proof. vm_compute. repeat split. Qed.

(** ** Pro upgrade *)

(** C6 (counterexample).  Upgrading a user whose subscription has expired
    leaves the status [expired]. *)
Lemma upgradeToPro_expired_not_active :
  status (subscription (upgradeToPro (sample_user 1 starter expired (Some 1) 10)))
  <> active.
Proof. simpl. discriminate. Qed.

(** C6 (amended).  [upgradeToPro] sets the plan to [pro], the stored limit to
    -1 and the price to 19.99, and leaves [subscription.status] as it was;
    the route persists exactly that document. *)
Theorem upgradeToPro_keeps_status (u : User) :
  status (subscription (upgradeToPro u)) = status (subscription u)
  /\ plan (subscription (upgradeToPro u)) = pro
  /\ maxInstances (subscription (upgradeToPro u)) = Some (-1)
  /\ price (subscription (upgradeToPro u)) = 19.99%float
  /\ forall st now,
       users st !! user_id u = Some u ->
       plan (subscription u) <> pro ->
       status_of (snd (upgradeToProRoute now (user_id u) st)) (user_id u)
       = Some (status (subscription u)).
Proof.
  split; [reflexivity|]. split; [reflexivity|]. split; [reflexivity|].
  split; [reflexivity|].
  intros st now Hu Hp.
  unfold upgradeToProRoute, try_catch, bind, findUserById, status_of.
  rewrite Hu. rewrite bool_decide_eq_false_2 by exact Hp.
  simpl. rewrite lookup_insert_eq. reflexivity.
Qed.

Lemma upgradeToPro_keeps_status_witness :
  status_of
    (snd (upgradeToProRoute 20 1 trial_store)) 1 = Some trial.
Proof.
  destruct (upgradeToPro_keeps_status trial_user) as (_ & _ & _ & _ & H).
  apply (H trial_store 20); [reflexivity | discriminate].
Defined.

Lemma isSubscriptionActive_upgradeToPro (u : User) (now : Z) :
  isSubscriptionActive (upgradeToPro u) now = isSubscriptionActive u now.
Proof. reflexivity. Qed.

(** C7 (counterexample).  After the upgrade of a user whose subscription has
    expired, the computed [maxInstances] is 0. *)
Lemma getMaxInstances_upgraded_expired :
  getMaxInstances (upgradeToPro (sample_user 1 starter expired (Some 1) 10)) 20 <> -1.
Proof. vm_compute. discriminate. Qed.

(** C7 (amended).  Right after [upgradeToPro], whatever limit was stored
    before, the computed [maxInstances] is -1 when the subscription is
    active (status [active] or an unexpired trial) and 0 when it is not. *)
Theorem getMaxInstances_upgradeToPro (u : User) (now : Z) :
  getMaxInstances (upgradeToPro u) now
  = if isSubscriptionActive u now then -1 else 0.
Proof.
  unfold getMaxInstances. rewrite isSubscriptionActive_upgradeToPro.
  destruct (isSubscriptionActive u now); reflexivity.
Qed.

(** ** Store invariants through the handlers *)

Section Preservation.
Context (P : Store -> Prop).

Lemma preserves_ret {A} (a : A) : preserves P (ret a).
Proof. intros st H. exact H. Qed.

Lemma preserves_throw {A} (e : Exn) : preserves P (throw (A:=A) e).
Proof. intros st H. exact H. Qed.

Lemma preserves_bind {A B} (m : M A) (k : A -> M B) :
  preserves P m -> (forall a, preserves P (k a)) -> preserves P (bind m k).
Proof.
  intros Hm Hk st H. specialize (Hm st H). unfold bind.
  destruct (m st) as [[e|a] st']; simpl in *; [exact Hm|].
  apply Hk, Hm.
Qed.

Lemma preserves_try_catch {A} (m : M A) (h : Exn -> M A) :
  preserves P m -> (forall e, preserves P (h e)) -> preserves P (try_catch m h).
Proof.
  intros Hm Hh st H. specialize (Hm st H). unfold try_catch.
  destruct (m st) as [[e|a] st']; simpl in *; [|exact Hm].
  apply Hh, Hm.
Qed.

Lemma preserves_for_each {A} (l : list A) (body : A -> M unit) :
  (forall x, preserves P (body x)) -> preserves P (for_each l body).
Proof.
  intros Hb. induction l as [|x l IH]; simpl.
  - apply preserves_ret.
  - apply preserves_bind; [apply Hb | intros _; exact IH].
Qed.

Lemma preserves_get_store : preserves P get_store.
Proof. intros st H. exact H. Qed.

Lemma preserves_findInstances q : preserves P (findInstances q).
Proof. intros st H. exact H. Qed.

Lemma preserves_findUserById uid : preserves P (findUserById uid).
Proof. intros st H. exact H. Qed.

Lemma preserves_findAffiliate uid : preserves P (findAffiliate uid).
Proof. intros st H. exact H. Qed.

Lemma preserves_fails b : preserves P (fails b).
Proof. intros st H. destruct b; exact H. Qed.

Lemma preserves_abortTransaction e : preserves P (abortTransaction e).
Proof. intros st H. destruct e; exact H. Qed.

Lemma preserves_abort_and_answer e : preserves P (abort_and_answer e).
Proof. intros st H. destruct e; exact H. Qed.
End Preservation.

(** One step of the proof that a handler keeps a property: peel the
    outermost construct of the computation. *)
Ltac preserve_step :=
  first
    [ apply preserves_ret | apply preserves_throw | apply preserves_get_store
    | apply preserves_findInstances | apply preserves_findUserById
    | apply preserves_findAffiliate | apply preserves_fails
    | apply preserves_abortTransaction | apply preserves_abort_and_answer
    | apply preserves_bind; [|intros ?]
    | apply preserves_try_catch; [|intros ?]
    | apply preserves_for_each; intros ?
    | match goal with
      | |- preserves _ (match ?x with _ => _ end) => destruct x
      end ].

(** The handlers never touch the instance collection except through
    [saveInstanceM]. *)
Lemma saveInstanceM_valid (i : Instance) : preserves instances_valid (saveInstanceM i).
Proof.
  intros st H. unfold saveInstanceM, saveInstance.
  destruct (validateInstance i) eqn:Hv; simpl; [|exact H].
  intros id j Hj. cbn [snd set_instances instances] in Hj.
  apply lookup_insert_Some in Hj as [[_ <-] | [_ Hj]].
  - unfold validateInstance in Hv. apply bool_decide_eq_true in Hv. exact Hv.
  - eapply H, Hj.
Qed.

Lemma saveUserM_valid (u : User) : preserves instances_valid (saveUserM u).
Proof. intros st H. exact H. Qed.

Lemma savePricedUserM_valid (u : User) : preserves instances_valid (savePricedUserM u).
Proof. intros st H. unfold savePricedUserM. destruct (castNumber _); exact H. Qed.

Lemma commitTransaction_valid f (u : User) :
  preserves instances_valid (commitTransaction f u).
Proof. intros st H. unfold commitTransaction. destruct (f_commit f); exact H. Qed.

Lemma saveAffiliateM_valid f (a : Affiliate) : preserves instances_valid (saveAffiliateM f a).
Proof.
  unfold saveAffiliateM. destruct (negb (validateAffiliate a)).
  - apply preserves_throw.
  - apply preserves_bind; [apply preserves_fails|]. intros _ st H. exact H.
Qed.

Lemma saveReferrerM_valid f (u : User) : preserves instances_valid (saveReferrerM f u).
Proof.
  unfold saveReferrerM. apply preserves_bind; [apply preserves_fails|].
  intros _. apply saveUserM_valid.
Qed.

Ltac preserve_valid :=
  repeat first
    [ apply saveInstanceM_valid | apply saveUserM_valid
    | apply savePricedUserM_valid | apply commitTransaction_valid
    | apply saveAffiliateM_valid | apply saveReferrerM_valid
    | preserve_step ].

Lemma handleExpiredTrial_valid gw now u :
  preserves instances_valid (handleExpiredTrial gw now u).
Proof. unfold handleExpiredTrial. preserve_valid. Qed.

Lemma checkExpiredTrials_valid gw now :
  preserves instances_valid (checkExpiredTrials gw now).
Proof.
  unfold checkExpiredTrials. preserve_valid.
Qed.

Lemma enableUserInstances_valid gw now uid :
  preserves instances_valid (enableUserInstances gw now uid).
Proof. unfold enableUserInstances. preserve_valid. Qed.

Lemma processAffiliateCommission_valid f u amount txid :
  preserves instances_valid (processAffiliateCommission f u amount txid).
Proof. unfold processAffiliateCommission. preserve_valid. Qed.

Lemma processSuccessfulPayment_valid gw now uid txid amount :
  preserves instances_valid (processSuccessfulPayment gw now uid txid amount).
Proof.
  unfold processSuccessfulPayment. preserve_valid.
Qed.

Lemma convertToPaid_valid f now uid : preserves instances_valid (convertToPaid f now uid).
Proof.
  unfold convertToPaid.
  repeat first [apply processAffiliateCommission_valid | preserve_valid].
Qed.

Lemma webhookPayment_valid f now ev : preserves instances_valid (webhookPayment f now ev).
Proof.
  unfold webhookPayment.
  repeat first [apply processAffiliateCommission_valid | preserve_valid].
Qed.

Lemma upgradeToProRoute_valid now uid : preserves instances_valid (upgradeToProRoute now uid).
Proof. unfold upgradeToProRoute. preserve_valid. Qed.

Lemma step_valid st st' : step st st' -> instances_valid st -> instances_valid st'.
Proof.
  intros Hs Hv. destruct Hs.
  - pose proof (saveInstanceM_valid i st Hv) as Hi.
    unfold saveInstanceM in Hi. rewrite H in Hi. exact Hi.
  - exact Hv.
  - exact Hv.
  - apply checkExpiredTrials_valid, Hv.
  - apply handleExpiredTrial_valid, Hv.
  - apply enableUserInstances_valid, Hv.
  - apply processSuccessfulPayment_valid, Hv.
  - apply convertToPaid_valid, Hv.
  - apply webhookPayment_valid, Hv.
  - apply upgradeToProRoute_valid, Hv.
Qed.

Lemma reachable_valid st : reachable st -> instances_valid st.
Proof.
  induction 1 as [|st st' _ IH Hs].
  - intros id i Hi. simpl in Hi. rewrite lookup_empty in Hi. discriminate Hi.
  - eapply step_valid; eassumption.
Qed.

(** ** Trial reconciliation *)

Lemma disabled_not_in_enum : disabled ∉ statusEnum.
Proof. unfold statusEnum. intros H. repeat (apply elem_of_cons in H as [H|H]; [discriminate H|]). inversion H. Qed.

Lemma saveInstance_disabled (c : InstanceColl) (i : Instance) :
  inst_status i = disabled -> saveInstance c i = inl ValidationError.
Proof.
  intros Hd. unfold saveInstance, validateInstance.
  rewrite bool_decide_eq_false_2; [reflexivity|].
  rewrite Hd. apply disabled_not_in_enum.
Qed.

Lemma saveInstanceM_mark_disabled (now : Z) (i : Instance) (st : Store) :
  saveInstanceM (mark_disabled now i) st = (inl ValidationError, st).
Proof.
  unfold saveInstanceM. rewrite saveInstance_disabled; reflexivity.
Qed.

(** The disable loop throws at the first instance whose gateway call
    succeeds, and writes nothing. *)
Lemma disable_loop_run (gw : Gateway) (now : Z) (l : list Instance) (st : Store) :
  for_each l (fun instance =>
    if gw (inst_id instance) then saveInstanceM (mark_disabled now instance)
    else ret tt) st
  = if existsb (fun i => gw (inst_id i)) l then (inl ValidationError, st)
    else (inr tt, st).
Proof.
  induction l as [|i l IH]; cbn [for_each existsb]; [reflexivity|].
  unfold bind at 1. destruct (gw (inst_id i)); cbn [orb].
  - rewrite saveInstanceM_mark_disabled. reflexivity.
  - cbn [ret]. exact IH.
Qed.

(** What one run of [handleExpiredTrial] does: nothing at all when some
    disable call succeeded, and the expiry of the subscription otherwise. *)
Lemma handleExpiredTrial_run (gw : Gateway) (now : Z) (u : User) (st : Store) :
  handleExpiredTrial gw now u st
  = (inr tt,
     if existsb (fun i => gw (inst_id i))
          (find (q_live_nonterminal (user_id u)) (instances st))
     then st
     else saveUser st
            (with_subscription
               (fun s => set_expiredAt (Some now) (set_status expired s)) u)).
Proof.
  unfold handleExpiredTrial, try_catch.
  unfold bind at 1. unfold findInstances at 1.
  unfold bind at 1. rewrite disable_loop_run.
  destruct (existsb _ _); reflexivity.
Qed.

Lemma handleExpiredTrial_instances (gw : Gateway) (now : Z) (u : User) (st : Store) :
  instances (snd (handleExpiredTrial gw now u st)) = instances st.
Proof.
  rewrite handleExpiredTrial_run. simpl. destruct (existsb _ _); reflexivity.
Qed.

(** Whenever the gateway disables one of the user's instances, the run
    leaves the store as it found it. *)
Lemma handleExpiredTrial_aborts (gw : Gateway) (now : Z) (u : User) (st : Store)
    (i : Instance) :
  In i (find (q_live_nonterminal (user_id u)) (instances st)) ->
  gw (inst_id i) = true ->
  handleExpiredTrial gw now u st = (inr tt, st).
Proof.
  intros Hin Hgw. rewrite handleExpiredTrial_run.
  replace (existsb _ _) with true; [reflexivity|].
  symmetry. apply existsb_exists. exists i. split; assumption.
Qed.

(** When every disable call fails, no instance changes and the subscription
    expires. *)
Lemma handleExpiredTrial_all_failed (gw : Gateway) (now : Z) (u : User) (st : Store) :
  (forall i, In i (find (q_live_nonterminal (user_id u)) (instances st)) ->
             gw (inst_id i) = false) ->
  handleExpiredTrial gw now u st
  = (inr tt,
     saveUser st
       (with_subscription (fun s => set_expiredAt (Some now) (set_status expired s)) u)).
Proof.
  intros Hall. rewrite handleExpiredTrial_run.
  replace (existsb _ _) with false; [reflexivity|].
  symmetry. apply not_true_is_false. intros He.
  apply existsb_exists in He as (i & Hin & Hgw).
  rewrite (Hall i Hin) in Hgw. discriminate Hgw.
Qed.

(** C2 (failing input).  [trial_user]'s trial has ended and the gateway
    disables the user's running instance: the run of [handleExpiredTrial],
    and the whole tick, leave the store unchanged, so the instance is still
    [running] and the subscription still [trial]. *)
Theorem handleExpiredTrial_successful_disable_changes_nothing :
  q_expired_trial 20 trial_user = true
  /\ handleExpiredTrial (fun _ => true) 20 trial_user trial_store = (inr tt, trial_store)
  /\ checkExpiredTrials (fun _ => true) 20 trial_store = (inr tt, trial_store)
  /\ status_of trial_store 1 = Some trial
  /\ option_map inst_status (instances trial_store !! 7%nat) = Some running.
Proof.
  split; [reflexivity|]. split.
  - apply (handleExpiredTrial_aborts _ _ _ _ (sample_instance 7 1 running None));
      [vm_compute; left; reflexivity | reflexivity].
  - split; [|split; reflexivity].
    vm_compute. reflexivity.
Qed.

(** ** The schema enum and the [disabled] status *)

Lemma filter_nil {A} (p : A -> bool) (l : list A) :
  (forall x, In x l -> p x = false) -> List.filter p l = [].
Proof.
  induction l as [|x l IH]; simpl; intros H; [reflexivity|].
  rewrite (H x) by (left; reflexivity). apply IH. intros y Hy. apply H. right. exact Hy.
Qed.

Lemma find_disabled_nil (st : Store) (uid : nat) :
  instances_valid st -> find (q_disabled uid) (instances st) = [].
Proof.
  intros Hv. unfold find. apply filter_nil. intros i Hi.
  apply list_elem_of_In in Hi. apply list_elem_of_fmap in Hi as [[id j] [-> Hj]].
  apply elem_of_map_to_list in Hj. simpl.
  unfold q_disabled. apply andb_false_intro2. apply bool_decide_eq_false_2.
  intros Hd. pose proof (Hv id j Hj) as He. rewrite Hd in He.
  exact (disabled_not_in_enum He).
Qed.

(** C5.  ['disabled'] is not a member of the schema enum of [status]; a
    [save] of a document with that status is rejected with a validation
    error, in particular the write made by the trial reconciliation; every
    instance of a reachable store has its status in the enum, so the
    payment-path query for [disabled] instances returns nothing. *)
Theorem disabled_status_rejected_by_schema :
  statusEnum = [deploying; running; stopped; error; deleting]
  /\ (disabled ∉ statusEnum)
  /\ (forall c i, inst_status i = disabled -> saveInstance c i = inl ValidationError)
  /\ (forall st now i, saveInstanceM (mark_disabled now i) st = (inl ValidationError, st))
  /\ (forall st, reachable st ->
        (forall id i, instances st !! id = Some i -> inst_status i ∈ statusEnum)
        /\ (forall uid, find (q_disabled uid) (instances st) = [])).
Proof.
  split; [reflexivity|]. split; [exact disabled_not_in_enum|].
  split; [exact saveInstance_disabled|].
  split; [intros; apply saveInstanceM_mark_disabled|].
  intros st Hr. pose proof (reachable_valid st Hr) as Hv. split.
  - exact Hv.
  - intros uid. apply find_disabled_nil, Hv.
Qed.

Lemma trial_store_reachable : reachable trial_store.
Proof.
  assert (Hs : step empty_store
                 (mkStore ∅ {[ 7%nat := sample_instance 7 1 running None ]} ∅)).
  { apply (step_save_instance empty_store (sample_instance 7 1 running None)).
    reflexivity. }
  assert (Hu : trial_store
               = saveUser (mkStore ∅ {[ 7%nat := sample_instance 7 1 running None ]} ∅)
                   trial_user) by reflexivity.
  rewrite Hu. eapply reach_step; [|apply step_save_user].
  eapply reach_step; [apply reach_empty | exact Hs].
Qed.

Lemma disabled_status_rejected_by_schema_witness :
  saveInstance ∅ (sample_instance 7 1 disabled None) = inl ValidationError
  /\ find (q_disabled 1) (instances trial_store) = [].
Proof.
  destruct disabled_status_rejected_by_schema as (_ & _ & Hs & _ & Hr).
  split.
  - apply Hs. reflexivity.
  - apply (Hr trial_store trial_store_reachable).
Defined.

(** ** Payment and commission processing *)

Lemma referral_store_wf (s : SubStatus) : wf_store (referral_store s).
Proof.
  split.
  - intros k u H. simpl in H.
    apply lookup_insert_Some in H as [[<- <-] | [_ H]]; [reflexivity|].
    apply lookup_singleton_Some in H as [<- <-]. reflexivity.
  - intros k a H. simpl in H.
    apply lookup_singleton_Some in H as [<- <-]. split; reflexivity.
Qed.

(** [processAffiliateCommission] returns ([null] at worst), whatever fails
    inside it. *)
Lemma processAffiliateCommission_returns f user amount txid st :
  exists res, fst (processAffiliateCommission f user amount txid st) = inr res.
Proof.
  unfold processAffiliateCommission.
  destruct (referredBy user); [|eexists; reflexivity].
  unfold try_catch. destruct (bind _ _ st) as [[e|res] st']; eexists; reflexivity.
Qed.

(** The only user document it writes is the referrer's. *)
Lemma processAffiliateCommission_users f user amount txid st k :
  wf_store st ->
  referredBy user <> Some k ->
  users (snd (processAffiliateCommission f user amount txid st)) !! k = users st !! k.
Proof.
  intros [Hu _] Hk. unfold processAffiliateCommission.
  destruct (referredBy user) as [r|]; [|reflexivity].
  assert (Hrk : r <> k) by congruence.
  unfold try_catch, bind, findUserById, findAffiliate, saveAffiliateM, saveReferrerM,
    saveUserM, fails, bind, ret, throw.
  destruct (users st !! r) as [referrer|] eqn:Hr; [|reflexivity].
  apply Hu in Hr.
  repeat (case_match; simplify_eq/=; try reflexivity);
    rewrite lookup_insert_ne by congruence; reflexivity.
Qed.

(** The commission step of the two handlers, as they call it. *)
Lemma commission_step f (user : User) amount txid st uid :
  wf_store st ->
  referredBy user <> Some uid ->
  exists res st1,
    match referredBy user with
    | Some _ => processAffiliateCommission f user amount txid
    | None => ret None
    end st = (inr res, st1)
    /\ users st1 !! uid = users st !! uid.
Proof.
  intros Hwf Hk. destruct (referredBy user) as [r|] eqn:Hr.
  - pose proof (processAffiliateCommission_users f user amount txid st uid Hwf) as Hus.
    destruct (processAffiliateCommission_returns f user amount txid st) as [res Hres].
    destruct (processAffiliateCommission f user amount txid st) as [x st1].
    simpl in *. subst x. exists res, st1. split; [reflexivity|].
    apply Hus. congruence.
  - exists None, st. split; reflexivity.
Qed.


(** When instead the final save of the user document fails, the handler
    answers 500 and the user stays on trial, but the commission written by
    [processAffiliateCommission] stays in the store: those writes are made
    outside the session. *)
Remark convertToPaid_user_save_failure_keeps_commission :
  fst (convertToPaid (mkFaults false false false true false) 1000 1 (referral_store trial))
  = inr R500
  /\ status_of
       (snd (convertToPaid (mkFaults false false false true false) 1000 1
               (referral_store trial))) 1
     = Some trial
  /\ referral_count
       (snd (convertToPaid (mkFaults false false false true false) 1000 1
               (referral_store trial))) 2
     = 1%nat.
Proof. vm_compute. repeat split. Qed.

(** When [commitTransaction] fails, [abortTransaction] is refused in the
    [catch] block and no answer is sent; the user stays on trial and the
    commission stays in the store. *)
Remark convertToPaid_commit_failure_sends_no_answer :
  fst (convertToPaid (mkFaults false false false false true) 1000 1 (referral_store trial))
  = inl TransactionError
  /\ status_of
       (snd (convertToPaid (mkFaults false false false false true) 1000 1
               (referral_store trial))) 1
     = Some trial
  /\ referral_count
       (snd (convertToPaid (mkFaults false false false false true) 1000 1
               (referral_store trial))) 2
     = 1%nat.
Proof. vm_compute. repeat split. Qed.

(** One run of the conversion for an existing user: the outcome, and what
    it leaves of the user's document. *)
Lemma convertToPaid_run (f : Faults) (st : Store) (now : Z) (uid : nat) (u : User) :
  wf_store st ->
  users st !! uid = Some u ->
  referredBy u <> Some uid ->
  exists out st',
    convertToPaid f now uid st = (out, st')
    /\ match out with
       | inr (R200 _) =>
           status_of st' uid = Some active
           /\ billing_of st' uid = Some (now + thirty_days)
       | _ => users st' !! uid = Some u
       end
    /\ (f_commit f = false -> exists resp, out = inr resp)
    /\ (status (subscription u) = trial ->
        f_startPaid_save f = false -> f_user_save f = false ->
        if f_commit f then out = inl TransactionError
        else exists b, out = inr (R200 b)).
Proof.
  intros Hwf Hu Hself.
  assert (Hid : user_id u = uid) by (destruct Hwf as [Hw _]; apply Hw, Hu).
  unfold convertToPaid, try_catch. unfold bind at 1. unfold findUserById at 1.
  cbn beta iota. rewrite Hu.
  destruct (bool_decide (status (subscription u) = trial)) eqn:Ht; cbn [negb].
  2:{ exists (inr R400), st. split; [reflexivity|]. split; [exact Hu|].
      split; [intros _; eexists; reflexivity|].
      intros Htr. apply bool_decide_eq_false in Ht. contradiction. }
  unfold bind at 1. destruct (f_startPaid_save f) eqn:F1; cbn [fails throw ret].
  { exists (inr R500), st. split; [reflexivity|]. split; [exact Hu|].
    split; [intros _; eexists; reflexivity | discriminate]. }
  set (user2 := with_subscription (activate now) (startPaidSubscription u now)).
  unfold bind at 1.
  destruct (commission_step f user2 (price (subscription user2))
              (sub_transactionId (user_id user2) now) st uid Hwf Hself)
    as (res & st1 & Hstep & Hus).
  rewrite Hstep.
  unfold bind at 1. destruct (f_user_save f) eqn:F2; cbn [fails throw ret].
  { exists (inr R500), st1. split; [reflexivity|]. split; [congruence|].
    split; [intros _; eexists; reflexivity | discriminate]. }
  unfold bind at 1. unfold commitTransaction.
  destruct (f_commit f) eqn:F3; cbn [throw].
  { exists (inl TransactionError), st1. split; [reflexivity|]. split; [congruence|].
    split; [discriminate | intros _ _ _; reflexivity]. }
  unfold bind, saveUserM, ret.
  exists (inr (R200 (isSome res))), (saveUser st1 user2). split; [reflexivity|]. split.
  - unfold status_of, billing_of, saveUser. cbn [users set_users].
    replace (user_id user2) with uid by (symmetry; exact Hid).
    rewrite lookup_insert_eq. split; reflexivity.
  - split; [intros _; eexists; reflexivity|].
    intros _ _ _. exists (isSome res). reflexivity.
Qed.




(** ** Replay of a payment confirmation *)

Lemma update_referral_Some uid amount c l l' :
  update_referral uid amount c l = Some l' ->
  length l' = length l
  /\ existsb (fun r => bool_decide (ref_user r = uid)) l' = true
  /\ map ref_user l' = map ref_user l.
Proof.
  revert l'. induction l as [|r l IH]; intros l' H; simpl in H; [discriminate H|].
  destruct (bool_decide (ref_user r = uid)) eqn:Hr.
  - injection H as <-. simpl. rewrite Hr. repeat split.
  - destruct (update_referral uid amount c l) as [l0|]; simpl in H; [|discriminate H].
    injection H as <-. destruct (IH l0 eq_refl) as (Hlen & Hex & Hm).
    simpl. rewrite Hr, Hlen, Hex, Hm. repeat split.
Qed.

(** The entry is updated exactly when there is one. *)
Lemma update_referral_isSome uid amount c l :
  isSome (update_referral uid amount c l)
  = existsb (fun r => bool_decide (ref_user r = uid)) l.
Proof.
  induction l as [|r l IH]; simpl; [reflexivity|].
  destruct (bool_decide (ref_user r = uid)); [reflexivity|].
  rewrite <- IH. destruct (update_referral uid amount c l); reflexivity.
Qed.

Lemma update_referral_None uid amount c l :
  update_referral uid amount c l = None ->
  existsb (fun r => bool_decide (ref_user r = uid)) l = false.
Proof. intros H. rewrite <- (update_referral_isSome uid amount c), H. reflexivity. Qed.

Lemma existsb_ref_user_false uid (l : list Referral) :
  existsb (fun r => bool_decide (ref_user r = uid)) l = false -> ~ In uid (map ref_user l).
Proof.
  induction l as [|r l IH]; simpl; intros H; [tauto|].
  apply orb_false_iff in H as [Hr Hl]. apply bool_decide_eq_false in Hr.
  intros [He | Hin]; [contradiction | exact (IH Hl Hin)].
Qed.

(** What a commission does to the affiliate document, apart from the
    amounts. *)
Lemma apply_commission_spec (uid : nat) (amount : float) (a : Affiliate) :
  totalEarnings (apply_commission uid amount a)
  = (totalEarnings a + amount * 20 / 100)%float
  /\ pendingEarnings (apply_commission uid amount a)
     = (pendingEarnings a + amount * 20 / 100)%float
  /\ has_referral uid (apply_commission uid amount a) = true
  /\ (NoDup (map ref_user (referrals a)) ->
      NoDup (map ref_user (referrals (apply_commission uid amount a))))
  /\ length (referrals (apply_commission uid amount a))
     = (if has_referral uid a then length (referrals a) else S (length (referrals a)))
  /\ aff_user (apply_commission uid amount a) = aff_user a
  /\ referralCode (apply_commission uid amount a) = referralCode a.
Proof.
  unfold apply_commission, has_referral. cbn [add_earnings referrals].
  rewrite <- (update_referral_isSome uid amount (amount * 20 / 100)%float (referrals a)).
  destruct (update_referral uid amount (amount * 20 / 100) (referrals a)) as [l|] eqn:Hup;
    cbn [set_referrals totalEarnings pendingEarnings referrals aff_user referralCode isSome].
  - destruct (update_referral_Some _ _ _ _ _ Hup) as (Hlen & Hex & Hm).
    split; [reflexivity|]. split; [reflexivity|]. split; [exact Hex|].
    split; [rewrite Hm; tauto|]. split; [exact Hlen|]. split; reflexivity.
  - pose proof (update_referral_None _ _ _ _ Hup) as Hno.
    rewrite existsb_app, map_app, length_app.
    cbn [map ref_user existsb length].
    rewrite bool_decide_eq_true_2 by reflexivity.
    split; [reflexivity|]. split; [reflexivity|]. split; [apply orb_true_r|].
    split; [|split; [lia | split; reflexivity]].
    intros Hnd. apply NoDup_app. split; [exact Hnd|]. split.
    + intros x Hx Hx'. apply list_elem_of_singleton in Hx'. subst x.
      apply list_elem_of_In in Hx. exact (existsb_ref_user_false uid _ Hno Hx).
    + apply NoDup_singleton.
Qed.

(** One run of [processAffiliateCommission] in which both saves succeed:
    the referrer has affiliate access and an affiliate record, and the
    record as updated passes validation (no [NaN] among its numbers). *)
Lemma processAffiliateCommission_success
    (f : Faults) (st : Store) (user ru : User) (r : nat) (a : Affiliate)
    (amount : float) (txid : string) :
  referredBy user = Some r ->
  users st !! r = Some ru -> user_id ru = r -> hasAffiliateAccess ru = true ->
  affiliates st !! r = Some a -> aff_user a = r ->
  validateAffiliate (apply_commission (user_id user) amount a) = true ->
  f_referrer_save f = false -> f_affiliate_save f = false ->
  processAffiliateCommission f user amount txid st
  = (inr (Some (mkCommissionResult r (amount * 20 / 100) txid)),
     set_affiliates (<[r := apply_commission (user_id user) amount a]> (affiliates st))
       (if has_referral (user_id user) a then st
        else saveUser st (incr_activeReferrals ru))).
Proof.
  intros Href Hru Hrid Hacc Ha Haid Hval F1 F2.
  unfold processAffiliateCommission. rewrite Href.
  unfold bind, try_catch, findUserById, findAffiliate. rewrite Hru. cbn beta iota.
  rewrite Hacc. cbn [negb]. rewrite Hrid, Ha. cbn [ret].
  unfold has_referral.
  rewrite <- (update_referral_isSome (user_id user) amount (amount * 20 / 100)%float
                (referrals a)).
  unfold apply_commission in *. cbn [add_earnings referrals] in *.
  destruct (update_referral (user_id user) amount (amount * 20 / 100) (referrals a))
    as [l|] eqn:Hup; cbn [isSome].
  - unfold saveAffiliateM, fails, bind, ret. rewrite Hval, F2. cbn [negb].
    cbn [set_referrals add_earnings aff_user]. rewrite Haid. reflexivity.
  - unfold saveReferrerM, saveAffiliateM, fails, bind, ret, saveUserM.
    rewrite F1, Hval, F2. cbn [negb]. cbn [set_referrals add_earnings aff_user].
    rewrite Haid. reflexivity.
Qed.

(** The commission is a rounded binary64 value: for the starter price it is
    not 0.798. *)
Remark commission_of_starter_price :
  (3.99 * 20 / 100)%float = 0.7980000000000002%float
  /\ (3.99 * 20 / 100)%float <> 0.798%float.
Proof.
  split; [reflexivity|].
  intros H. apply (f_equal (fun x => (x =? 0.798)%float)) in H.
  vm_compute in H. discriminate H.
Qed.

(** A [NaN] amount: the sums are [NaN], the save of the affiliate record is
    rejected and nothing is paid. *)
Remark processAffiliateCommission_nan_amount :
  fst (processAffiliateCommission no_faults (referred_user active) nan "tx1"
         (referral_store active)) = inr None
  /\ affiliates (snd (processAffiliateCommission no_faults (referred_user active) nan "tx1"
                        (referral_store active))) !! 2%nat
     = Some referrer_affiliate.
Proof. vm_compute. split; reflexivity. Qed.

Lemma falsy_false (x : float) : falsy x = false -> is_nan x = false.
Proof. unfold falsy. intros H. apply orb_false_iff in H as [_ H]. exact H. Qed.

(** One successful delivery to a user whose referrer has an affiliate
    record. *)
Lemma webhookPayment_commission_run st now amount txid uid r u ru a :
  commission_ready st uid r u ru a ->
  falsy amount = false -> txid <> ""%string ->
  validateAffiliate (apply_commission uid amount a) = true ->
  exists st' u' ru',
    webhookPayment no_faults now (mkPaymentEvent (Some uid) amount txid) st
    = (inr (R200 true), st')
    /\ commission_ready st' uid r u' ru' (apply_commission uid amount a)
    /\ nextBillingDate (subscription u') = Some (now + thirty_days)
    /\ (has_referral uid a = true -> activeReferrals ru' = activeReferrals ru).
Proof.
  intros (Hu & Hid & Href & Hne & Hru & Hrid & Hacc & Ha & Haid & _) Hamt Htx Hval.
  unfold webhookPayment, try_catch. cbn [ev_userId ev_amount ev_transactionId].
  rewrite Hamt, bool_decide_eq_false_2 by exact Htx. cbn [orb].
  unfold bind at 1. unfold findUserById at 1. cbn beta iota. rewrite Hu.
  fold (webhook_paid now u).
  change (referredBy (webhook_paid now u)) with (referredBy u). rewrite Href.
  unfold bind at 1.
  assert (Hval' : validateAffiliate
                    (apply_commission (user_id (webhook_paid now u)) amount a) = true)
    by (change (user_id (webhook_paid now u)) with (user_id u); rewrite Hid; exact Hval).
  rewrite (processAffiliateCommission_success no_faults st (webhook_paid now u) ru r a
             amount txid Href Hru Hrid Hacc Ha Haid Hval' eq_refl eq_refl).
  change (user_id (webhook_paid now u)) with (user_id u). rewrite Hid.
  unfold bind, fails, commitTransaction, saveUserM, ret.
  cbn [no_faults f_user_save f_commit isSome].
  destruct (apply_commission_spec uid amount a) as (_ & _ & _ & _ & _ & Hau & _).
  exists (saveUser
            (set_affiliates (<[r := apply_commission uid amount a]> (affiliates st))
               (if has_referral uid a then st else saveUser st (incr_activeReferrals ru)))
            (webhook_paid now u)),
    (stored_user (webhook_paid now u)),
    (if has_referral uid a then ru else stored_user (incr_activeReferrals ru)).
  split; [reflexivity|]. split; [|split].
  - unfold commission_ready, saveUser.
    change (user_id (webhook_paid now u)) with (user_id u). rewrite Hid.
    cbn [users affiliates set_users set_affiliates].
    rewrite lookup_insert_eq.
    split; [reflexivity|]. split; [exact Hid|]. split; [exact Href|].
    split; [exact Hne|].
    rewrite lookup_insert_ne by congruence.
    destruct (has_referral uid a); cbn [users affiliates set_users set_affiliates].
    + rewrite lookup_insert_eq.
      split; [exact Hru|]. split; [exact Hrid|]. split; [exact Hacc|].
      split; [reflexivity|]. split; [congruence | exact Hval].
    + change (user_id (incr_activeReferrals ru)) with (user_id ru).
      rewrite Hrid, !lookup_insert_eq.
      split; [reflexivity|]. split; [exact Hrid|]. split; [exact Hacc|].
      split; [reflexivity|]. split; [congruence | exact Hval].
  - reflexivity.
  - intros ->. reflexivity.
Qed.

Lemma enableUserInstances_users gw now uid st :
  users (snd (enableUserInstances gw now uid st)) = users st.
Proof.
  assert (H : preserves (fun s => users s = users st) (enableUserInstances gw now uid)).
  { unfold enableUserInstances.
    repeat first
      [ preserve_step
      | intros s Hs; unfold saveInstanceM; destruct (saveInstance _ _); exact Hs ]. }
  apply H. reflexivity.
Qed.

(** One call of [processSuccessfulPayment] for an existing user and an
    amount that is a number. *)
Lemma processSuccessfulPayment_run gw now uid txid amount st u :
  users st !! uid = Some u -> user_id u = uid -> is_nan amount = false ->
  exists u',
    users (snd (processSuccessfulPayment gw now uid txid amount st)) !! uid = Some u'
    /\ user_id u' = uid
    /\ status (subscription u') = active
    /\ nextBillingDate (subscription u') = Some (now + thirty_days).
Proof.
  intros Hu Hid Hnan. unfold processSuccessfulPayment.
  unfold bind at 1. unfold findUserById at 1. cbn beta iota. rewrite Hu.
  set (u' := with_subscription _ u).
  unfold bind at 1. unfold savePricedUserM, castNumber.
  change (price (subscription u')) with amount. rewrite Hnan. cbn [negb].
  unfold saveUserM at 1. cbn beta iota.
  unfold bind at 1.
  pose proof (enableUserInstances_users gw now uid (saveUser st u')) as He.
  destruct (enableUserInstances gw now uid (saveUser st u')) as [[e|res] st2];
    cbn [snd ret] in *; rewrite He; unfold saveUser; cbn [users set_users];
    (replace (user_id u') with uid by (symmetry; exact Hid));
    rewrite lookup_insert_eq; exists (stored_user u'); repeat split; exact Hid.
Qed.

(** C3 (counterexample).  The sample event is delivered to the webhook at
    time 1000 and again at time 5000: the first delivery leaves the
    affiliate with earnings 1, the replay with earnings 2, and the replay
    moves [nextBillingDate] from 1000 + 30 days to 5000 + 30 days. *)
Lemma payment_replay_changes_state :
  earnings_of delivered_once 2 = 1%float
  /\ earnings_of delivered_twice 2 = 2%float
  /\ earnings_of delivered_twice 2 <> earnings_of delivered_once 2
  /\ billing_of delivered_once 1 = Some (1000 + thirty_days)
  /\ billing_of delivered_twice 1 = Some (5000 + thirty_days)
  /\ delivered_twice <> delivered_once.
Proof.
  split; [vm_compute; reflexivity|]. split; [vm_compute; reflexivity|].
  split.
  { intros H. apply (f_equal (fun x => (x =? 1)%float)) in H.
    vm_compute in H. discriminate H. }
  split; [vm_compute; reflexivity|]. split; [vm_compute; reflexivity|].
  intros H. apply (f_equal (fun s => billing_of s 1)) in H.
  vm_compute in H. discriminate H.
Qed.

(** C3 (amended).  No handler looks at [transactionId].  Each delivery of a
    payment confirmation to the webhook, when no save fails, is answered
    200 with the commission processed, adds the commission
    [(amount * 20) / 100] (in binary64 arithmetic) to the affiliate's total
    and pending earnings and sets [nextBillingDate] to the time of that
    delivery plus 30 days, so a replay adds the commission a second time;
    only the referral entry and the referrer's [activeReferrals] counter
    are not duplicated by the replay.  This is for an amount that is a
    number other than 0 and as long as the affiliate's updated figures are
    numbers (a record holding [NaN] is not saved).  Each call of
    [processSuccessfulPayment] with such an amount sets [nextBillingDate]
    to the time of the call plus 30 days. *)
Theorem payment_replay_applies_again
    (st : Store) (now1 now2 : Z) (amount : float) (txid : string)
    (uid r : nat) (u ru : User) (a : Affiliate) (gw1 gw2 : Gateway) :
  commission_ready st uid r u ru a ->
  falsy amount = false -> txid <> ""%string ->
  validateAffiliate (apply_commission uid amount a) = true ->
  validateAffiliate (apply_commission uid amount (apply_commission uid amount a)) = true ->
  let ev := mkPaymentEvent (Some uid) amount txid in
  let c := (amount * 20 / 100)%float in
  fst (webhookPayment no_faults now1 ev st) = inr (R200 true)
  /\ fst (webhookPayment no_faults now2 ev (webhook_once now1 ev st)) = inr (R200 true)
  /\ earnings_of (webhook_once now1 ev st) r = (totalEarnings a + c)%float
  /\ earnings_of (webhook_twice now1 now2 ev st) r
     = (earnings_of (webhook_once now1 ev st) r + c)%float
  /\ pending_of (webhook_once now1 ev st) r = (pendingEarnings a + c)%float
  /\ pending_of (webhook_twice now1 now2 ev st) r
     = (pending_of (webhook_once now1 ev st) r + c)%float
  /\ billing_of (webhook_once now1 ev st) uid = Some (now1 + thirty_days)
  /\ billing_of (webhook_twice now1 now2 ev st) uid = Some (now2 + thirty_days)
  /\ referral_count (webhook_twice now1 now2 ev st) r
     = referral_count (webhook_once now1 ev st) r
  /\ activeReferrals_of (webhook_twice now1 now2 ev st) r
     = activeReferrals_of (webhook_once now1 ev st) r
  /\ billing_of (payment_once gw1 now1 uid txid amount st) uid
     = Some (now1 + thirty_days)
  /\ billing_of (payment_twice gw1 gw2 now1 now2 uid txid amount st) uid
     = Some (now2 + thirty_days).
Proof.
  intros Hready Hamt Htx Hv1 Hv2 ev c.
  destruct (webhookPayment_commission_run st now1 amount txid uid r u ru a
              Hready Hamt Htx Hv1)
    as (st1 & u1 & ru1 & Hrun1 & Hready1 & Hb1 & _).
  destruct (webhookPayment_commission_run st1 now2 amount txid uid r u1 ru1
              (apply_commission uid amount a) Hready1 Hamt Htx Hv2)
    as (st2 & u2 & ru2 & Hrun2 & Hready2 & Hb2 & Hsame).
  destruct (apply_commission_spec uid amount a) as (Ht1 & Hp1 & Hh1 & _).
  destruct (apply_commission_spec uid amount (apply_commission uid amount a))
    as (Ht2 & Hp2 & _ & _ & Hlen2 & _).
  rewrite Hh1 in Hlen2. specialize (Hsame Hh1).
  assert (E1 : webhook_once now1 ev st = st1).
  { unfold webhook_once, ev. rewrite Hrun1. reflexivity. }
  assert (E2 : webhook_twice now1 now2 ev st = st2).
  { unfold webhook_twice. rewrite E1. unfold ev. rewrite Hrun2. reflexivity. }
  rewrite E1, E2. unfold ev. rewrite Hrun1, Hrun2. cbn [fst].
  destruct Hready1 as (Hu1 & _ & _ & _ & Hru1 & _ & _ & Ha1 & _).
  destruct Hready2 as (Hu2 & _ & _ & _ & Hru2 & _ & _ & Ha2 & _).
  unfold earnings_of, pending_of, billing_of, referral_count, activeReferrals_of.
  rewrite Hu1, Hu2, Hru1, Hru2, Ha1, Ha2.
  split; [reflexivity|]. split; [reflexivity|].
  split; [exact Ht1|]. split; [exact Ht2|]. split; [exact Hp1|]. split; [exact Hp2|].
  split; [exact Hb1|]. split; [exact Hb2|]. split; [exact Hlen2|]. split; [exact Hsame|].
  destruct Hready as (Hu & Hid & _).
  pose proof (falsy_false amount Hamt) as Hnan.
  destruct (processSuccessfulPayment_run gw1 now1 uid txid amount st u Hu Hid Hnan)
    as (p1 & Hp1' & Hpid1 & _ & Hpb1).
  destruct (processSuccessfulPayment_run gw2 now2 uid txid amount
              (payment_once gw1 now1 uid txid amount st) p1 Hp1' Hpid1 Hnan)
    as (p2 & Hp2' & _ & _ & Hpb2).
  unfold payment_twice. fold (payment_once gw1 now1 uid txid amount st).
  unfold payment_once at 1. rewrite Hp1'.
  fold (payment_once gw1 now1 uid txid amount st) in Hp2'.
  rewrite Hp2'. split; assumption.
Qed.

Lemma referral_store_ready :
  commission_ready (referral_store active) 1 2 (referred_user active) referrer_user
    referrer_affiliate.
Proof. unfold commission_ready. repeat split. discriminate. Qed.

Lemma payment_replay_applies_again_witness :
  earnings_of (webhook_twice 1000 5000 sample_event (referral_store active)) 2
  = (earnings_of (webhook_once 1000 sample_event (referral_store active)) 2
     + 5 * 20 / 100)%float.
Proof.
  refine (proj1 (proj2 (proj2 (proj2
    (payment_replay_applies_again (referral_store active) 1000 5000 5 "tx1"%string
       1 2 (referred_user active) referrer_user referrer_affiliate
       (fun _ => true) (fun _ => true) referral_store_ready _ _ _ _))))).
  - reflexivity.
  - discriminate.
  - reflexivity.
  - reflexivity.
Defined.

(** * Further properties *)

(** ** The trial tick *)

Lemma handleExpiredTrial_tick (gw : Gateway) (now : Z) (u : User) (st : Store) :
  handleExpiredTrial gw now u st
  = (inr tt,
     if disable_all_failed gw (instances st) u then saveUser st (expire u) else st).
Proof.
  rewrite handleExpiredTrial_run. unfold disable_all_failed, expire.
  destruct (existsb _ _); reflexivity.
Qed.

(** The loop of the tick over a list of user documents. *)
Lemma tick_loop_run (gw : Gateway) (now : Z) (l : list User) (st : Store) :
  for_each l (handleExpiredTrial gw now) st
  = (inr tt,
     set_users
       (fold_left
          (fun m u =>
             if disable_all_failed gw (instances st) u
             then <[user_id u := expire u]> m else m)
          l (users st))
       st).
Proof.
  revert st. induction l as [|u l IH]; intros st.
  - destruct st; reflexivity.
  - cbn [for_each fold_left]. unfold bind. rewrite handleExpiredTrial_tick.
    destruct (disable_all_failed gw (instances st) u) eqn:Hd.
    + rewrite IH. cbn [instances saveUser set_users set_instances users].
      destruct st; reflexivity.
    + apply IH.
Qed.

Lemma tick_fold_lookup (gw : Gateway) (now : Z) (c : InstanceColl)
    (m0 : gmap nat User) (l : list User) (m : gmap nat User) (k : nat) :
  (forall u, In u l -> m0 !! user_id u = Some u) ->
  fold_left
    (fun m u => if disable_all_failed gw c u then <[user_id u := expire u]> m else m)
    l m !! k
  = if existsb (fun u => bool_decide (user_id u = k) && disable_all_failed gw c u) l
    then expire <$> m0 !! k
    else m !! k.
Proof.
  revert m. induction l as [|u l IH]; intros m Hl; cbn [fold_left existsb]; [reflexivity|].
  rewrite IH by (intros u' Hu'; apply Hl; right; exact Hu').
  destruct (existsb _ l); [rewrite orb_true_r; reflexivity|]. rewrite orb_false_r.
  destruct (disable_all_failed gw c u) eqn:Hd.
  - rewrite andb_true_r. destruct (decide (user_id u = k)) as [Hk|Hk].
    + rewrite bool_decide_eq_true_2 by exact Hk. rewrite <- Hk.
      rewrite lookup_insert_eq, (Hl u) by (left; reflexivity). reflexivity.
    + rewrite bool_decide_eq_false_2 by exact Hk.
      rewrite lookup_insert_ne by exact Hk. reflexivity.
  - rewrite andb_false_r. reflexivity.
Qed.

Lemma In_filter_map_to_list (q : User -> bool) (m : gmap nat User) (u : User) :
  In u (List.filter q (map_to_list m).*2) <-> q u = true /\ exists k, m !! k = Some u.
Proof.
  rewrite filter_In, <- list_elem_of_In, list_elem_of_fmap. split.
  - intros [[[k v] [-> Hkv]] Hq]. apply elem_of_map_to_list in Hkv.
    split; [exact Hq | exists k; exact Hkv].
  - intros [Hq [k Hk]]. split; [|exact Hq].
    exists (k, u). split; [reflexivity | apply elem_of_map_to_list; exact Hk].
Qed.

(** One tick, as a map over the user documents. *)
Lemma tick_run (gw : Gateway) (now : Z) (st : Store) :
  wf_users st ->
  checkExpiredTrials gw now st
  = (inr tt, set_users (tick_user gw now (instances st) <$> users st) st).
Proof.
  intros Hwf. unfold checkExpiredTrials, try_catch, bind, get_store.
  rewrite tick_loop_run. f_equal. f_equal. apply map_eq. intros k.
  rewrite (tick_fold_lookup gw now (instances st) (users st)).
  2:{ intros u Hu. apply In_filter_map_to_list in Hu as [_ [k' Hk']].
      rewrite (Hwf k' u Hk'). exact Hk'. }
  rewrite lookup_fmap.
  destruct (users st !! k) as [u|] eqn:Hk; cbn [fmap option_fmap option_map].
  2:{ destruct (existsb _ _); reflexivity. }
  unfold tick_user.
  destruct (existsb _ _) eqn:Hex.
  - apply existsb_exists in Hex as (u' & Hin & Hc).
    apply andb_true_iff in Hc as [Hid Hd]. apply bool_decide_eq_true in Hid.
    apply In_filter_map_to_list in Hin as [Hq [k' Hk']].
    assert (k' = k) by (rewrite <- (Hwf k' u' Hk'); exact Hid). subst k'.
    assert (u' = u) by congruence. subst u'.
    rewrite Hq, Hd. reflexivity.
  - destruct (q_expired_trial now u && disable_all_failed gw (instances st) u) eqn:Hc;
      [|reflexivity].
    apply andb_true_iff in Hc as [Hq Hd].
    assert (Hex' : existsb
              (fun u0 => bool_decide (user_id u0 = k)
                         && disable_all_failed gw (instances st) u0)
              (List.filter (q_expired_trial now) (map_to_list (users st)).*2) = true).
    { apply existsb_exists. exists u. split.
      - apply In_filter_map_to_list. split; [exact Hq | exists k; exact Hk].
      - rewrite Hd, bool_decide_eq_true_2 by (apply (Hwf k u Hk)). reflexivity. }
    congruence.
Qed.


(** X1.  One tick of the trial service, on a store whose user documents sit
    under their ids: it always returns, leaves instances and affiliates as
    they are, and maps every user document through [tick_user]: a user whose
    trial has ended and for whom no disable call succeeded is stored with
    status [expired] (and without the [expiredAt] that the handler assigns,
    which is not a schema path); every other user document is left as it
    is. *)
Theorem checkExpiredTrials_run (gw : Gateway) (now : Z) (st : Store) :
  wf_users st ->
  fst (checkExpiredTrials gw now st) = inr tt
  /\ instances (snd (checkExpiredTrials gw now st)) = instances st
  /\ affiliates (snd (checkExpiredTrials gw now st)) = affiliates st
  /\ forall k,
       users (snd (checkExpiredTrials gw now st)) !! k
       = tick_user gw now (instances st) <$> users st !! k.
Proof.
  intros Hwf. rewrite (tick_run gw now st Hwf). cbn [fst snd].
  split; [reflexivity|]. split; [reflexivity|]. split; [reflexivity|].
  intros k. cbn [set_users users]. apply lookup_fmap.
Qed.

Lemma trial_store_wf_users : wf_users trial_store.
Proof.
  intros k u H. simpl in H. apply lookup_singleton_Some in H as [<- <-]. reflexivity.
Qed.

Lemma checkExpiredTrials_run_witness :
  option_map (fun u => status (subscription u))
    (users (snd (checkExpiredTrials (fun _ => false) 20 trial_store)) !! 1%nat)
  = Some expired.
Proof.
  destruct (checkExpiredTrials_run (fun _ => false) 20 trial_store trial_store_wf_users)
    as (_ & _ & _ & H).
  rewrite (H 1%nat). reflexivity.
Defined.

Lemma tick_user_id gw now c u : user_id (tick_user gw now c u) = user_id u.
Proof. unfold tick_user. destruct (_ && _); reflexivity. Qed.

Lemma tick_user_idem gw now c u :
  tick_user gw now c (tick_user gw now c u) = tick_user gw now c u.
Proof.
  unfold tick_user.
  destruct (q_expired_trial now u && disable_all_failed gw c u) eqn:Hc.
  - reflexivity.
  - rewrite Hc. reflexivity.
Qed.

(** X2.  With the same clock reading and the same gateway answers, a second
    tick changes nothing: the users expired by the first tick are no longer
    selected, and for the others the run is repeated with the same outcome. *)
Theorem checkExpiredTrials_idempotent (gw : Gateway) (now : Z) (st : Store) :
  wf_users st ->
  snd (checkExpiredTrials gw now (snd (checkExpiredTrials gw now st)))
  = snd (checkExpiredTrials gw now st).
Proof.
  intros Hwf. rewrite (tick_run gw now st Hwf). cbn [snd].
  rewrite tick_run.
  - unfold set_users. cbn [snd users instances affiliates]. f_equal.
    rewrite <- map_fmap_compose. apply map_fmap_ext. intros k u _.
    apply tick_user_idem.
  - intros k u Hu. cbn [set_users users] in Hu. rewrite lookup_fmap in Hu.
    destruct (users st !! k) as [u0|] eqn:Hk; [|discriminate Hu].
    injection Hu as <-. rewrite tick_user_id. exact (Hwf k u0 Hk).
Qed.

Lemma checkExpiredTrials_idempotent_witness :
  snd (checkExpiredTrials (fun _ => false) 20
         (snd (checkExpiredTrials (fun _ => false) 20 trial_store)))
  = snd (checkExpiredTrials (fun _ => false) 20 trial_store).
Proof.
  apply (checkExpiredTrials_idempotent (fun _ => false) 20 trial_store trial_store_wf_users).
Defined.

(** X3.  A user on trial whose trial has ended and who has no live instance
    outside the states [deleting] and [error] is expired by the tick, and
    from then on is entitled to nothing: the computed limit is 0 and
    [canCreateInstance] is false at every time and for every collection of
    instances.  The stored document does not record when the trial was
    expired. *)
Theorem checkExpiredTrials_expires_user_without_instances
    (gw : Gateway) (now : Z) (st : Store) (uid : nat) (u : User) :
  wf_users st ->
  users st !! uid = Some u ->
  status (subscription u) = trial ->
  trialEndsAt (subscription u) < now ->
  find (q_live_nonterminal uid) (instances st) = [] ->
  exists u',
    users (snd (checkExpiredTrials gw now st)) !! uid = Some u'
    /\ status (subscription u') = expired
    /\ expiredAt (subscription u') = None
    /\ forall c t, getMaxInstances u' t = 0 /\ canCreateInstance c u' t = false.
Proof.
  intros Hwf Hu Hs Hend Hnone.
  rewrite (tick_run gw now st Hwf). cbn [snd set_users users].
  rewrite lookup_fmap, Hu. cbn [fmap option_fmap option_map].
  assert (Htick : tick_user gw now (instances st) u = expire u).
  { unfold tick_user, q_expired_trial, disable_all_failed.
    rewrite (Hwf uid u Hu), Hnone, bool_decide_eq_true_2 by exact Hs.
    apply Z.ltb_lt in Hend. rewrite Hend. reflexivity. }
  rewrite Htick. exists (expire u).
  split; [reflexivity|]. split; [reflexivity|]. split; [reflexivity|].
  intros c t. split; reflexivity.
Qed.

Lemma checkExpiredTrials_expires_user_without_instances_witness :
  exists u',
    users (snd (checkExpiredTrials (fun _ => true) 20
                  (mkStore {[ 1%nat := trial_user ]} ∅ ∅))) !! 1%nat = Some u'
    /\ status (subscription u') = expired
    /\ expiredAt (subscription u') = None
    /\ forall c t, getMaxInstances u' t = 0 /\ canCreateInstance c u' t = false.
Proof.
  apply (checkExpiredTrials_expires_user_without_instances (fun _ => true) 20
           (mkStore {[ 1%nat := trial_user ]} ∅ ∅) 1 trial_user).
  - intros k u H. simpl in H. apply lookup_singleton_Some in H as [<- <-]. reflexivity.
  - reflexivity.
  - reflexivity.
  - simpl. lia.
  - reflexivity.
Defined.

(** ** Re-enabling instances and processing a PayPal payment *)

Lemma saveUserM_wf_users (u : User) : preserves wf_users (saveUserM u).
Proof.
  intros st H k v Hv. cbn [snd saveUserM saveUser set_users users] in Hv.
  apply lookup_insert_Some in Hv as [[<- <-] | [_ Hv]]; [reflexivity | exact (H k v Hv)].
Qed.

Lemma savePricedUserM_wf_users (u : User) : preserves wf_users (savePricedUserM u).
Proof.
  unfold savePricedUserM. destruct (castNumber _);
    [apply saveUserM_wf_users | apply preserves_throw].
Qed.

Lemma commitTransaction_wf_users f (u : User) :
  preserves wf_users (commitTransaction f u).
Proof.
  unfold commitTransaction. destruct (f_commit f);
    [apply preserves_throw | apply saveUserM_wf_users].
Qed.

Lemma saveInstanceM_wf_users (i : Instance) : preserves wf_users (saveInstanceM i).
Proof.
  intros st H. unfold saveInstanceM. destruct (saveInstance _ _); exact H.
Qed.

Lemma saveAffiliateM_wf_users f (a : Affiliate) : preserves wf_users (saveAffiliateM f a).
Proof.
  unfold saveAffiliateM. destruct (negb (validateAffiliate a)).
  - apply preserves_throw.
  - apply preserves_bind; [apply preserves_fails|]. intros _ st H. exact H.
Qed.

Lemma saveReferrerM_wf_users f (u : User) : preserves wf_users (saveReferrerM f u).
Proof.
  unfold saveReferrerM. apply preserves_bind; [apply preserves_fails|].
  intros _. apply saveUserM_wf_users.
Qed.

Ltac preserve_wf_users :=
  repeat first
    [ apply saveInstanceM_wf_users | apply saveUserM_wf_users
    | apply savePricedUserM_wf_users | apply commitTransaction_wf_users
    | apply saveAffiliateM_wf_users | apply saveReferrerM_wf_users
    | preserve_step ].

Lemma processAffiliateCommission_wf_users f u amount txid :
  preserves wf_users (processAffiliateCommission f u amount txid).
Proof. unfold processAffiliateCommission. preserve_wf_users. Qed.

Lemma step_wf_users st st' : step st st' -> wf_users st -> wf_users st'.
Proof.
  intros Hs Hv. destruct Hs.
  - exact Hv.
  - apply (saveUserM_wf_users u st Hv).
  - exact Hv.
  - revert st Hv. change (preserves wf_users (checkExpiredTrials gw now)).
    unfold checkExpiredTrials. preserve_wf_users.
  - revert st Hv. change (preserves wf_users (handleExpiredTrial gw now u)).
    unfold handleExpiredTrial. preserve_wf_users.
  - revert st Hv. change (preserves wf_users (enableUserInstances gw now uid)).
    unfold enableUserInstances. preserve_wf_users.
  - revert st Hv.
    change (preserves wf_users (processSuccessfulPayment gw now uid txid amount)).
    unfold processSuccessfulPayment. preserve_wf_users.
  - revert st Hv. change (preserves wf_users (convertToPaid f now uid)).
    unfold convertToPaid.
    repeat first [apply processAffiliateCommission_wf_users | preserve_wf_users].
  - revert st Hv. change (preserves wf_users (webhookPayment f now ev)).
    unfold webhookPayment.
    repeat first [apply processAffiliateCommission_wf_users | preserve_wf_users].
  - revert st Hv. change (preserves wf_users (upgradeToProRoute now uid)).
    unfold upgradeToProRoute. preserve_wf_users.
Qed.

Lemma reachable_wf_users st : reachable st -> wf_users st.
Proof.
  induction 1 as [|st st' _ IH Hs].
  - intros k u Hu. simpl in Hu. rewrite lookup_empty in Hu. discriminate Hu.
  - eapply step_wf_users; eassumption.
Qed.

Lemma enableUserInstances_valid_noop (gw : Gateway) (now : Z) (uid : nat) (st : Store) :
  instances_valid st ->
  enableUserInstances gw now uid st
  = (inr (match users st !! uid with
          | Some _ => EnableOk 0
          | None => EnableFailed NotFoundError
          end), st).
Proof.
  intros Hv. pose proof (find_disabled_nil st uid Hv) as Hnil.
  unfold enableUserInstances, try_catch, bind, findUserById, findInstances.
  destruct (users st !! uid); [|reflexivity].
  rewrite Hnil. reflexivity.
Qed.

(** X4.  On a reachable store [enableUserInstances] never changes anything:
    for a missing user it reports the failure ("User not found"), and for an
    existing user it finds no [disabled] instance, calls no gateway and
    reports success with 0 enabled instances. *)
Theorem enableUserInstances_reachable (gw : Gateway) (now : Z) (uid : nat) (st : Store) :
  reachable st ->
  enableUserInstances gw now uid st
  = (inr (match users st !! uid with
          | Some _ => EnableOk 0
          | None => EnableFailed NotFoundError
          end), st).
Proof.
  intros Hr. apply enableUserInstances_valid_noop, reachable_valid, Hr.
Qed.

Lemma enableUserInstances_reachable_witness :
  enableUserInstances (fun _ => true) 20 1 trial_store = (inr (EnableOk 0), trial_store).
Proof.
  apply (enableUserInstances_reachable (fun _ => true) 20 1 trial_store trial_store_reachable).
Defined.

(** X5.  On a reachable store [processSuccessfulPayment] throws "User not
    found" and writes nothing when the user is missing, and throws a
    validation error and writes nothing when the amount is [NaN] (the cast
    of [subscription.price] fails).  Otherwise it saves the user document
    with the plan derived from the amount and answers with that plan and 0
    enabled instances: a payment never brings an instance back to
    [running].  The payment record that the function pushes is not a schema
    path: the stored document holds none. *)
Theorem processSuccessfulPayment_reachable
    (gw : Gateway) (now : Z) (uid : nat) (txid : string) (amount : float) (st : Store) :
  reachable st ->
  processSuccessfulPayment gw now uid txid amount st
  = match users st !! uid with
    | None => (inl NotFoundError, st)
    | Some u =>
        if is_nan amount then (inl ValidationError, st)
        else (inr (mkPaymentResult (plan_of_amount amount) (Some 0%nat)),
              saveUser st (after_payment now txid amount u))
    end
  /\ forall u u',
       users st !! uid = Some u ->
       users (saveUser st (after_payment now txid amount u)) !! uid = Some u' ->
       payments (subscription u') = []
       /\ price (subscription u') = amount
       /\ status (subscription u') = active.
Proof.
  intros Hr. split.
  - unfold processSuccessfulPayment.
    unfold bind at 1. unfold findUserById at 1. cbn beta iota.
    destruct (users st !! uid) as [u|] eqn:Hu; [|reflexivity].
    fold (plan_of_amount amount). fold (after_payment now txid amount u).
    unfold bind at 1. unfold savePricedUserM, castNumber.
    change (price (subscription (after_payment now txid amount u))) with amount.
    destruct (is_nan amount); cbn [negb throw]; [reflexivity|].
    unfold saveUserM at 1. cbn beta iota.
    unfold bind at 1.
    rewrite enableUserInstances_valid_noop
      by (apply reachable_valid; eapply reach_step; [exact Hr | apply step_save_user]).
    cbn [users saveUser set_users].
    replace (user_id (after_payment now txid amount u)) with uid
      by (symmetry; apply (reachable_wf_users st Hr uid u Hu)).
    rewrite lookup_insert_eq. reflexivity.
  - intros u u' Hu Hu'. cbn [users saveUser set_users] in Hu'.
    replace (user_id (after_payment now txid amount u)) with uid in Hu'
      by (symmetry; apply (reachable_wf_users st Hr uid u Hu)).
    rewrite lookup_insert_eq in Hu'. injection Hu' as <-. repeat split.
Qed.

Lemma processSuccessfulPayment_reachable_witness :
  processSuccessfulPayment (fun _ => true) 20 1 "tx1" 5 trial_store
  = (inr (mkPaymentResult starter (Some 0%nat)),
     saveUser trial_store (after_payment 20 "tx1" 5 trial_user))
  /\ processSuccessfulPayment (fun _ => true) 20 1 "tx1" nan trial_store
     = (inl ValidationError, trial_store).
Proof.
  split.
  - apply (proj1 (processSuccessfulPayment_reachable (fun _ => true) 20 1 "tx1" 5
                    trial_store trial_store_reachable)).
  - apply (proj1 (processSuccessfulPayment_reachable (fun _ => true) 20 1 "tx1" nan
                    trial_store trial_store_reachable)).
Defined.

(** X6.  Whatever the subscription was before (expired, on trial, or
    unlimited after [upgradeToPro]), the document saved by a payment is
    active at every time, with plan [pro] and limit 5 when the amount is at
    least 9.99 and plan [starter] and limit 1 otherwise; so a paid pro plan
    is never unlimited, and its holder may create an instance exactly while
    fewer than the limit are live. *)
Theorem after_payment_entitlement
    (now : Z) (txid : string) (amount : float) (u : User) (c : InstanceColl) (t : Z) :
  isSubscriptionActive (after_payment now txid amount u) t = true
  /\ plan (subscription (after_payment now txid amount u))
     = (if (9.99 <=? amount)%float then pro else starter)
  /\ getMaxInstances (after_payment now txid amount u) t
     = (if (9.99 <=? amount)%float then 5 else 1)
  /\ hasProAccess (after_payment now txid amount u) t = (9.99 <=? amount)%float
  /\ canCreateInstance c (after_payment now txid amount u) t
     = (countDocuments (q_live (user_id u)) c
        <? (if (9.99 <=? amount)%float then 5 else 1)).
Proof.
  unfold canCreateInstance, hasProAccess, getMaxInstances, isSubscriptionActive,
    after_payment, plan_of_amount.
  destruct (9.99 <=? amount)%float; cbn; repeat split.
Qed.

(** ** Starting a trial *)

Lemma startTrial_run (now : Z) (uid : nat) (p : Plan) (cfg : PlanConfig)
    (u : User) (st : Store) :
  PRICING_PLANS p = Some cfg ->
  users st !! uid = Some u ->
  isSubscriptionActive u now && bool_decide (plan (subscription u) = p) = false ->
  startTrial now uid p st
  = (inr (TrialStarted p trial (now + cfg_trialDuration cfg)
            (getMaxInstances (trial_started now p cfg u) now)),
     saveUser st (trial_started now p cfg u)).
Proof.
  intros Hcfg Hu Hact. unfold startTrial, startTrialRequest, try_catch.
  assert (Hp : bool_decide (p ∈ [starter; pro]) = true).
  { apply bool_decide_eq_true. destruct p; [discriminate Hcfg| |];
      repeat constructor. }
  rewrite Hp. cbn [negb orb]. unfold bind at 1. unfold findUserById at 1.
  cbn beta iota. rewrite Hu. unfold bind at 1. cbn [referralBranch ret].
  rewrite Hact, Hcfg. reflexivity.
Qed.

Lemma isSubscriptionActive_trial_started now p cfg u t :
  isSubscriptionActive (trial_started now p cfg u) t
  = (t <? now + cfg_trialDuration cfg).
Proof.
  unfold isSubscriptionActive, isTrialActive, trial_started, with_subscription.
  cbn [subscription status trialEndsAt set_trialEndsAt set_maxInstances set_price
       set_status set_plan].
  rewrite bool_decide_eq_false_2 by discriminate.
  rewrite bool_decide_eq_true_2 by reflexivity. reflexivity.
Qed.

(** The entitlement of a document is a matter of its schema paths. *)
Lemma isSubscriptionActive_stored_user (u : User) (t : Z) :
  isSubscriptionActive (stored_user u) t = isSubscriptionActive u t.
Proof. reflexivity. Qed.

Lemma getMaxInstances_stored_user (u : User) (t : Z) :
  getMaxInstances (stored_user u) t = getMaxInstances u t.
Proof. reflexivity. Qed.

Lemma getMaxInstances_trial_started now p cfg u t :
  getMaxInstances (trial_started now p cfg u) t
  = (if t <? now + cfg_trialDuration cfg then cfg_maxInstances cfg else 0).
Proof.
  unfold getMaxInstances. rewrite isSubscriptionActive_trial_started.
  destruct (t <? now + cfg_trialDuration cfg); reflexivity.
Qed.

(** X7.  A starter trial can be started from any subscription that is not
    an active starter one (in particular again after a trial has expired).
    The subscription is then on trial for exactly the next 60 minutes: it
    is active, with limit 1, at every time before [now + 3600000] and
    inactive, with limit 0, from then on. *)
Theorem startTrial_starter_window (now : Z) (uid : nat) (u : User) (st : Store) :
  users st !! uid = Some u ->
  user_id u = uid ->
  isSubscriptionActive u now && bool_decide (plan (subscription u) = starter) = false ->
  exists u',
    startTrial now uid starter st
    = (inr (TrialStarted starter trial (now + 3600000) 1), saveUser st u')
    /\ users (saveUser st u') !! uid = Some u'
    /\ forall t,
         (isSubscriptionActive u' t = true <-> t < now + 3600000)
         /\ getMaxInstances u' t = (if t <? now + 3600000 then 1 else 0).
Proof.
  intros Hu Hid Hact.
  set (cfg := mkPlanConfig 3.99%float 1 (60 * 60 * 1000)).
  exists (stored_user (trial_started now starter cfg u)).
  split; [|split].
  - rewrite (startTrial_run now uid starter cfg u st eq_refl Hu Hact).
    rewrite getMaxInstances_trial_started. cbn [cfg cfg_trialDuration cfg_maxInstances].
    change (60 * 60 * 1000) with 3600000.
    replace (now <? now + 3600000) with true by (symmetry; apply Z.ltb_lt; lia).
    reflexivity.
  - cbn [saveUser users set_users stored_user trial_started with_subscription user_id].
    rewrite Hid. apply lookup_insert_eq.
  - intros t. rewrite getMaxInstances_stored_user, isSubscriptionActive_stored_user.
    rewrite getMaxInstances_trial_started, isSubscriptionActive_trial_started.
    cbn [cfg cfg_trialDuration cfg_maxInstances]. change (60 * 60 * 1000) with 3600000.
    rewrite Z.ltb_lt. split; reflexivity.
Qed.

Lemma startTrial_starter_window_witness :
  exists u',
    startTrial 100 1 starter
      (mkStore {[ 1%nat := sample_user 1 starter expired (Some 1) 10 ]} ∅ ∅)
    = (inr (TrialStarted starter trial (100 + 3600000) 1),
       saveUser (mkStore {[ 1%nat := sample_user 1 starter expired (Some 1) 10 ]} ∅ ∅) u')
    /\ users (saveUser (mkStore {[ 1%nat := sample_user 1 starter expired (Some 1) 10 ]} ∅ ∅)
                u') !! 1%nat = Some u'
    /\ forall t,
         (isSubscriptionActive u' t = true <-> t < 100 + 3600000)
         /\ getMaxInstances u' t = (if t <? 100 + 3600000 then 1 else 0).
Proof.
  apply (startTrial_starter_window 100 1 (sample_user 1 starter expired (Some 1) 10)
           (mkStore {[ 1%nat := sample_user 1 starter expired (Some 1) 10 ]} ∅ ∅));
    reflexivity.
Defined.

(** X8.  The pro plan has a trial duration of 0: starting a pro trial (from
    any subscription that is not an active pro one, for instance from an
    active paid starter subscription) answers with a computed limit of 0
    and leaves a subscription that is inactive from the moment of the
    request on, so the user can create no instance and has no pro access. *)
Theorem startTrial_pro_never_active (now : Z) (uid : nat) (u : User) (st : Store) :
  users st !! uid = Some u ->
  user_id u = uid ->
  isSubscriptionActive u now && bool_decide (plan (subscription u) = pro) = false ->
  exists u',
    startTrial now uid pro st = (inr (TrialStarted pro trial now 0), saveUser st u')
    /\ users (saveUser st u') !! uid = Some u'
    /\ forall t c,
         now <= t ->
         isSubscriptionActive u' t = false
         /\ getMaxInstances u' t = 0
         /\ canCreateInstance c u' t = false
         /\ hasProAccess u' t = false.
Proof.
  intros Hu Hid Hact.
  set (cfg := mkPlanConfig 19.99%float (-1) 0).
  exists (stored_user (trial_started now pro cfg u)).
  split; [|split].
  - rewrite (startTrial_run now uid pro cfg u st eq_refl Hu Hact).
    rewrite getMaxInstances_trial_started. cbn [cfg cfg_trialDuration cfg_maxInstances].
    rewrite Z.add_0_r, Z.ltb_irrefl. reflexivity.
  - cbn [saveUser users set_users stored_user trial_started with_subscription user_id].
    rewrite Hid. apply lookup_insert_eq.
  - intros t c Ht.
    assert (Hi : isSubscriptionActive (stored_user (trial_started now pro cfg u)) t
                 = false).
    { rewrite isSubscriptionActive_stored_user, isSubscriptionActive_trial_started.
      cbn [cfg cfg_trialDuration]. apply Z.ltb_ge. lia. }
    unfold canCreateInstance, getMaxInstances, hasProAccess. rewrite Hi.
    cbn [negb]. rewrite andb_false_r. repeat split.
Qed.

Lemma startTrial_pro_never_active_witness :
  exists u',
    startTrial 100 1 pro
      (mkStore {[ 1%nat := sample_user 1 starter active (Some 1) 10 ]} ∅ ∅)
    = (inr (TrialStarted pro trial 100 0),
       saveUser (mkStore {[ 1%nat := sample_user 1 starter active (Some 1) 10 ]} ∅ ∅) u')
    /\ users (saveUser (mkStore {[ 1%nat := sample_user 1 starter active (Some 1) 10 ]} ∅ ∅)
                u') !! 1%nat = Some u'
    /\ forall t c,
         100 <= t ->
         isSubscriptionActive u' t = false
         /\ getMaxInstances u' t = 0
         /\ canCreateInstance c u' t = false
         /\ hasProAccess u' t = false.
Proof.
  apply (startTrial_pro_never_active 100 1 (sample_user 1 starter active (Some 1) 10)
           (mkStore {[ 1%nat := sample_user 1 starter active (Some 1) 10 ]} ∅ ∅));
    reflexivity.
Defined.

(** The referral branch of a request of the stored user [u]: it returns
    the document it may have changed and leaves [after_referral]. *)
Lemma referral_branch_run (code : ReferralCode) (u : User) (st : Store) :
  exists u',
    referralBranch code u st = (inr u', after_referral code u st)
    /\ subscription u' = subscription u.
Proof.
  unfold referralBranch, after_referral. destruct code as [| |referrer]; try (exists u; split; reflexivity).
  unfold try_catch, applyReferral.
  destruct (isSome (referredBy u) || bool_decide (affiliateStatus u = aff_active));
    [exists u; split; reflexivity|].
  destruct referrer as [rid|]; [|exists u; split; reflexivity].
  exists (set_referredBy (Some rid) u). split; reflexivity.
Qed.

(** X9.  [/start-trial] refuses a request in three cases: when validation
    fails (a plan other than starter and pro, or a [referralCode] that is
    not a string), when the user is missing, and when the user's
    subscription is active on the requested plan.  In the first two cases
    nothing is written.  In the third the referral code has already been
    dealt with: a code that names an active affiliate, presented by a user
    who has no referrer and is not an active affiliate, has been applied
    and saved, so the refused request has stored [referredBy]; otherwise
    (no code, no such affiliate, or a user with a referrer or who is an
    active affiliate) nothing is written.  In every other case the request
    is answered that the trial has started. *)
Theorem startTrial_refusals (code : ReferralCode) (now : Z) (uid : nat) (p : Plan)
    (st : Store) :
  (p = free \/ code = NotAString ->
   startTrialRequest code now uid p st = (inr TrialValidationFailed, st))
  /\ (p <> free -> code <> NotAString -> users st !! uid = None ->
      startTrialRequest code now uid p st = (inr TrialUserNotFound, st))
  /\ (forall u,
        p <> free -> code <> NotAString -> users st !! uid = Some u ->
        isSubscriptionActive u now = true -> plan (subscription u) = p ->
        startTrialRequest code now uid p st
        = (inr TrialAlreadyActive, after_referral code u st)
        /\ (code = NoCode -> after_referral code u st = st)
        /\ (forall rid,
              code = Code (Some rid) ->
              referredBy u = None -> affiliateStatus u <> aff_active ->
              after_referral code u st = saveUser st (set_referredBy (Some rid) u))
        /\ (forall referrer,
              code = Code referrer ->
              referredBy u <> None \/ affiliateStatus u = aff_active \/ referrer = None ->
              after_referral code u st = st))
  /\ (forall u,
        p <> free -> code <> NotAString -> users st !! uid = Some u ->
        (isSubscriptionActive u now = false \/ plan (subscription u) <> p) ->
        exists ends m st',
          startTrialRequest code now uid p st = (inr (TrialStarted p trial ends m), st')).
Proof.
  assert (Hp : p <> free -> bool_decide (p ∈ [starter; pro]) = true).
  { intros Hne. apply bool_decide_eq_true. destruct p; [contradiction| |];
      repeat constructor. }
  assert (Hc : code <> NotAString ->
               match code with NotAString => true | _ => false end = false).
  { intros Hne. destruct code; [reflexivity | contradiction | reflexivity]. }
  split; [|split; [|split]].
  - intros [-> | ->]; [reflexivity|].
    unfold startTrialRequest, try_catch. rewrite orb_true_r. reflexivity.
  - intros Hne Hcode Hu. unfold startTrialRequest, try_catch.
    rewrite (Hp Hne), (Hc Hcode). cbn [negb orb].
    unfold bind, findUserById. rewrite Hu. reflexivity.
  - intros u Hne Hcode Hu Ha Hpl. split; [|split; [|split]].
    + unfold startTrialRequest, try_catch. rewrite (Hp Hne), (Hc Hcode). cbn [negb orb].
      unfold bind at 1. unfold findUserById at 1. cbn beta iota. rewrite Hu.
      unfold bind at 1.
      destruct (referral_branch_run code u st) as (u' & Hrun & Hsub). rewrite Hrun.
      unfold isSubscriptionActive, isTrialActive in *. rewrite Hsub, Ha.
      rewrite bool_decide_eq_true_2 by exact Hpl. reflexivity.
    + intros ->. reflexivity.
    + intros rid -> Hr Haff. unfold after_referral, applyReferral.
      rewrite Hr, bool_decide_eq_false_2 by exact Haff. reflexivity.
    + intros referrer -> Hor. unfold after_referral, applyReferral.
      destruct Hor as [Hr | [Haff | ->]].
      * destruct (referredBy u); [reflexivity | contradiction].
      * rewrite bool_decide_eq_true_2 by exact Haff. rewrite orb_true_r. reflexivity.
      * destruct (isSome (referredBy u) || bool_decide (affiliateStatus u = aff_active));
          reflexivity.
  - intros u Hne Hcode Hu Hor.
    unfold startTrialRequest, try_catch. rewrite (Hp Hne), (Hc Hcode). cbn [negb orb].
    unfold bind at 1. unfold findUserById at 1. cbn beta iota. rewrite Hu.
    unfold bind at 1.
    destruct (referral_branch_run code u st) as (u' & Hrun & Hsub). rewrite Hrun.
    assert (Hact : isSubscriptionActive u' now
                   && bool_decide (plan (subscription u') = p) = false).
    { unfold isSubscriptionActive, isTrialActive in *. rewrite Hsub.
      destruct Hor as [Hi | Hpl]; [rewrite Hi; reflexivity|].
      rewrite (bool_decide_eq_false_2 _ Hpl). apply andb_false_r. }
    rewrite Hact.
    destruct (PRICING_PLANS p) as [cfg|] eqn:Hcfg;
      [|destruct p; [contradiction | discriminate Hcfg | discriminate Hcfg]].
    unfold bind, saveUserM, ret. eexists _, _, _.
    cbn [with_subscription subscription plan status trialEndsAt set_trialEndsAt
         set_maxInstances set_price set_status set_plan].
    reflexivity.
Qed.

Lemma startTrial_refusals_witness :
  startTrialRequest NoCode 5 1 starter trial_store = (inr TrialAlreadyActive, trial_store)
  /\ startTrialRequest (Code (Some 2%nat)) 5 1 starter trial_store
     = (inr TrialAlreadyActive,
        saveUser trial_store (set_referredBy (Some 2%nat) trial_user))
  /\ startTrialRequest NoCode 5 2 starter trial_store = (inr TrialUserNotFound, trial_store)
  /\ startTrialRequest NotAString 5 1 starter trial_store
     = (inr TrialValidationFailed, trial_store).
Proof.
  destruct (startTrial_refusals NoCode 5 1 starter trial_store) as (_ & _ & Ha & _).
  destruct (startTrial_refusals (Code (Some 2%nat)) 5 1 starter trial_store)
    as (_ & _ & Hc & _).
  destruct (startTrial_refusals NoCode 5 2 starter trial_store) as (_ & Hn & _).
  destruct (startTrial_refusals NotAString 5 1 starter trial_store) as (Hv & _).
  split; [|split; [|split]].
  - destruct (Ha trial_user) as (Hrun & Hst & _ & _);
      [discriminate | discriminate | reflexivity | reflexivity | reflexivity |].
    rewrite Hrun, (Hst eq_refl). reflexivity.
  - destruct (Hc trial_user) as (Hrun & _ & Hst & _);
      [discriminate | discriminate | reflexivity | reflexivity | reflexivity |].
    rewrite Hrun, (Hst 2%nat eq_refl eq_refl); [reflexivity | discriminate].
  - apply Hn; [discriminate | discriminate | reflexivity].
  - apply Hv. right. reflexivity.
Defined.

(** ** Entitlement: upgrade, limit middleware, usage report *)

(** X10.  After [upgradeToPro] a user may create an instance exactly when
    the subscription is active, whatever the number of live instances, and
    has pro access under the same condition. *)
Theorem upgradeToPro_entitlement (c : InstanceColl) (u : User) (now : Z) :
  canCreateInstance c (upgradeToPro u) now = isSubscriptionActive u now
  /\ hasProAccess (upgradeToPro u) now = isSubscriptionActive u now.
Proof.
  unfold canCreateInstance, hasProAccess, getMaxInstances.
  rewrite isSubscriptionActive_upgradeToPro.
  destruct (isSubscriptionActive u now); split; reflexivity.
Qed.

(** X11.  [checkInstanceLimit] lets the request through exactly when
    [canCreateInstance] holds, and answers "subscription expired" exactly
    when the subscription is inactive.  When it answers "limit reached", the
    limit it reports is finite and reached by the number of live instances,
    and the count it reports is at most that number. *)
Theorem checkInstanceLimit_decision (c : InstanceColl) (u : User) (now : Z) :
  (checkInstanceLimit c u now = Next <-> canCreateInstance c u now = true)
  /\ ((exists s b, checkInstanceLimit c u now = SubscriptionExpired s b)
      <-> isSubscriptionActive u now = false)
  /\ (forall cur m p b,
        checkInstanceLimit c u now = LimitReached cur m p b ->
        m = getMaxInstances u now
        /\ m <> -1
        /\ m <= countDocuments (q_live (user_id u)) c
        /\ cur = currentLiveCount c u
        /\ cur <= countDocuments (q_live (user_id u)) c).
Proof.
  unfold checkInstanceLimit.
  destruct (isSubscriptionActive u now) eqn:Ha; cbn [negb].
  - destruct (canCreateInstance c u now) eqn:Hc; cbn [negb].
    + split; [split; reflexivity|]. split.
      * split; [intros (s & b & H); discriminate H | discriminate].
      * intros cur m p b H. discriminate H.
    + split; [split; discriminate|]. split.
      * split; [intros (s & b & H); discriminate H | discriminate].
      * intros cur m p b H. injection H as <- <- _ _.
        assert (Hnot : ~ (getMaxInstances u now = -1
                          \/ countDocuments (q_live (user_id u)) c < getMaxInstances u now)).
        { intros Hor.
          assert (Ht : canCreateInstance c u now = true)
            by (apply canCreateInstance_true_iff; split; [exact Ha | exact Hor]).
          congruence. }
        pose proof (currentLiveCount_le c u).
        split; [reflexivity|]. split; [tauto|]. split; [lia|].
        split; [reflexivity | assumption].
  - assert (Hc : canCreateInstance c u now = false)
      by (unfold canCreateInstance; rewrite Ha; reflexivity).
    rewrite Hc.
    split; [split; discriminate|]. split.
    + split; [reflexivity | intros _; eauto].
    + intros cur m p b H. discriminate H.
Qed.

Lemma checkInstanceLimit_decision_witness :
  1 <= countDocuments (q_live (user_id quota_user)) quota_instances.
Proof.
  destruct (checkInstanceLimit_decision quota_instances quota_user 20) as (_ & _ & H).
  destruct (H 0 1 starter true eq_refl) as (_ & _ & Hle & _). exact Hle.
Defined.

(** X12.  The usage report of [GET /subscription] is computed from the
    stored limit only.  It never reports a negative remainder; for an
    unlimited plan (stored limit -1) it reports 0 remaining instances
    although an active subscription may create one; and for an inactive
    subscription it still reports the room under the stored limit although
    nothing may be created. *)
Theorem subscriptionUsage_report (c : InstanceColl) (u : User) (now : Z) (m : Z) :
  maxInstances (subscription u) = Some m ->
  exists us,
    subscriptionUsage c u = Some us
    /\ usage_currentInstances us = currentLiveCount c u
    /\ 0 <= usage_remainingInstances us
    /\ (m = -1 -> usage_remainingInstances us = 0
                  /\ canCreateInstance c u now = isSubscriptionActive u now)
    /\ (currentLiveCount c u < m ->
        usage_remainingInstances us = m - currentLiveCount c u
        /\ (isSubscriptionActive u now = false -> canCreateInstance c u now = false)).
Proof.
  intros Hm. unfold subscriptionUsage. rewrite Hm.
  eexists. split; [reflexivity|]. cbn [usage_currentInstances usage_remainingInstances].
  fold (currentLiveCount c u).
  assert (H0 : 0 <= currentLiveCount c u)
    by (unfold currentLiveCount, countDocuments; lia).
  split; [reflexivity|]. split; [lia|]. split.
  - intros ->. split; [lia|].
    unfold canCreateInstance, getMaxInstances. rewrite Hm.
    destruct (isSubscriptionActive u now); reflexivity.
  - intros Hlt. split; [lia|].
    intros Hi. unfold canCreateInstance. rewrite Hi. reflexivity.
Qed.

Lemma subscriptionUsage_report_witness :
  exists us,
    subscriptionUsage quota_instances (sample_user 1 pro active (Some (-1)) 10) = Some us
    /\ usage_remainingInstances us = 0
    /\ canCreateInstance quota_instances (sample_user 1 pro active (Some (-1)) 10) 20 = true.
Proof.
  destruct (subscriptionUsage_report quota_instances
              (sample_user 1 pro active (Some (-1)) 10) 20 (-1) eq_refl)
    as (us & Hus & _ & _ & Hunl & _).
  destruct (Hunl eq_refl) as [Hrem Hcan].
  exists us. split; [exact Hus|]. split; [exact Hrem | exact Hcan].
Defined.

(** ** Conversion and webhook *)

(** [/convert-to-paid] for a user who is not on trial. *)
Lemma convertToPaid_not_trial (f : Faults) (now : Z) (uid : nat) (u : User) (st : Store) :
  users st !! uid = Some u ->
  status (subscription u) <> trial ->
  convertToPaid f now uid st = (inr R400, st).
Proof.
  intros Hu Hs. unfold convertToPaid, try_catch, bind, findUserById. rewrite Hu.
  rewrite bool_decide_eq_false_2 by exact Hs. reflexivity.
Qed.

(** X13.  [/convert-to-paid] answers 400 ("no active trial to convert") and
    writes nothing for every user whose subscription is not on trial,
    whatever fails.  In particular a conversion cannot be repeated as it
    is: on the store that a conversion answered with 200 leaves, a further
    call for the same user answers 400 and writes nothing.  (A later
    [/start-trial] puts the subscription on trial again, after which it can
    be converted again.) *)
Theorem convertToPaid_refuses_non_trial
    (f f' : Faults) (now now' : Z) (uid : nat) (u : User) (st : Store) :
  users st !! uid = Some u ->
  (status (subscription u) <> trial -> convertToPaid f now uid st = (inr R400, st))
  /\ (forall st' b,
        wf_store st ->
        referredBy u <> Some uid ->
        convertToPaid f now uid st = (inr (R200 b), st') ->
        convertToPaid f' now' uid st' = (inr R400, st')).
Proof.
  intros Hu. split.
  - intros Hs. exact (convertToPaid_not_trial f now uid u st Hu Hs).
  - intros st' b Hwf Hself Hrun.
    destruct (convertToPaid_run f st now uid u Hwf Hu Hself)
      as (out & st1 & Hrun1 & Hpost & _).
    rewrite Hrun in Hrun1. injection Hrun1 as <- <-.
    destruct Hpost as [Hst _]. unfold status_of in Hst.
    destruct (users st' !! uid) as [u'|] eqn:Hu'; [|discriminate Hst].
    cbn in Hst. injection Hst as Hst.
    apply (convertToPaid_not_trial f' now' uid u' st' Hu').
    rewrite Hst. discriminate.
Qed.

Lemma convertToPaid_refuses_non_trial_witness :
  convertToPaid no_faults 2000 1 (snd (convertToPaid no_faults 1000 1 (referral_store trial)))
  = (inr R400, snd (convertToPaid no_faults 1000 1 (referral_store trial))).
Proof.
  destruct (convertToPaid_refuses_non_trial no_faults no_faults 1000 2000 1
              (referred_user trial) (referral_store trial) eq_refl) as [_ H].
  apply (H _ true (referral_store_wf trial)).
  - discriminate.
  - vm_compute. reflexivity.
Defined.

(** The document of the paying user after one run of the webhook. *)
Lemma webhookPayment_user_doc (f : Faults) (st : Store) (now : Z) (uid : nat) (u : User)
    (amount : float) (txid : string) :
  wf_store st ->
  users st !! uid = Some u ->
  referredBy u <> Some uid ->
  exists out st',
    webhookPayment f now (mkPaymentEvent (Some uid) amount txid) st = (out, st')
    /\ users st' !! uid
       = Some (match out with
               | inr (R200 _) => stored_user (webhook_paid now u)
               | _ => u
               end).
Proof.
  intros Hwf Hu Hself.
  assert (Hid : user_id u = uid) by (destruct Hwf as [Hw _]; apply Hw, Hu).
  unfold webhookPayment, try_catch. cbn [ev_userId ev_amount ev_transactionId].
  destruct (falsy amount || bool_decide (txid = ""%string)).
  { exists (inr R400), st. split; [reflexivity | exact Hu]. }
  unfold bind at 1. unfold findUserById at 1. cbn beta iota. rewrite Hu.
  fold (webhook_paid now u).
  unfold bind at 1.
  destruct (commission_step f (webhook_paid now u) amount txid st uid Hwf Hself)
    as (res & st1 & Hstep & Hus).
  rewrite Hstep.
  unfold bind at 1. destruct (f_user_save f); cbn [fails throw ret].
  { exists (inr R500), st1. split; [reflexivity | congruence]. }
  unfold bind at 1. unfold commitTransaction. destruct (f_commit f); cbn [throw].
  { exists (inl TransactionError), st1. split; [reflexivity | congruence]. }
  unfold bind, saveUserM, ret.
  exists (inr (R200 (isSome res))), (saveUser st1 (webhook_paid now u)).
  split; [reflexivity|].
  unfold saveUser. cbn [users set_users].
  replace (user_id (webhook_paid now u)) with uid by (symmetry; exact Hid).
  apply lookup_insert_eq.
Qed.

(** X14.  The payment webhook never changes the entitlement of the paying
    user: whatever it answers, the persisted subscription keeps its status,
    plan and stored limit, so it is active at the same times and has the
    same computed limit as before (a payment delivered for an expired
    subscription leaves it expired). *)
Theorem webhookPayment_keeps_entitlement
    (f : Faults) (st : Store) (now : Z) (uid : nat) (u : User)
    (amount : float) (txid : string) :
  wf_store st ->
  users st !! uid = Some u ->
  referredBy u <> Some uid ->
  exists u',
    users (snd (webhookPayment f now (mkPaymentEvent (Some uid) amount txid) st)) !! uid
    = Some u'
    /\ status (subscription u') = status (subscription u)
    /\ plan (subscription u') = plan (subscription u)
    /\ maxInstances (subscription u') = maxInstances (subscription u)
    /\ forall t c,
         isSubscriptionActive u' t = isSubscriptionActive u t
         /\ getMaxInstances u' t = getMaxInstances u t
         /\ canCreateInstance c u' t = canCreateInstance c u t.
Proof.
  intros Hwf Hu Hself.
  destruct (webhookPayment_user_doc f st now uid u amount txid Hwf Hu Hself)
    as (out & st' & Hrun & Hdoc).
  rewrite Hrun. cbn [snd]. rewrite Hdoc.
  eexists. split; [reflexivity|].
  destruct out as [e|[]]; repeat split.
Qed.

Lemma webhookPayment_keeps_entitlement_witness :
  exists u',
    users (snd (webhookPayment no_faults 1000 sample_event (referral_store expired)))
    !! 1%nat = Some u'
    /\ status (subscription u') = expired.
Proof.
  destruct (webhookPayment_keeps_entitlement no_faults (referral_store expired) 1000 1
              (referred_user expired) 5 "tx1"%string (referral_store_wf expired) eq_refl)
    as (u' & Hu' & Hs & _); [discriminate|].
  exists u'. split; [exact Hu' | exact Hs].
Defined.

(** ** Affiliate commission *)

(** X15.  [processAffiliateCommission] pays nothing and writes nothing for
    a user without referrer, for a referrer that does not exist, and for a
    referrer without affiliate access; this holds whatever would fail. *)
Theorem processAffiliateCommission_no_commission
    (f : Faults) (st : Store) (user : User) (amount : float) (txid : string) :
  (referredBy user = None ->
   processAffiliateCommission f user amount txid st = (inr None, st))
  /\ (forall r, referredBy user = Some r -> users st !! r = None ->
        processAffiliateCommission f user amount txid st = (inr None, st))
  /\ (forall r ru, referredBy user = Some r -> users st !! r = Some ru ->
        affiliateStatus ru <> aff_active ->
        processAffiliateCommission f user amount txid st = (inr None, st)).
Proof.
  unfold processAffiliateCommission. split; [|split].
  - intros ->. reflexivity.
  - intros r -> Hr. unfold try_catch, bind, findUserById. rewrite Hr. reflexivity.
  - intros r ru -> Hr Hst. unfold try_catch, bind, findUserById, hasAffiliateAccess.
    rewrite Hr. cbn beta iota. rewrite bool_decide_eq_false_2 by exact Hst. reflexivity.
Qed.

Lemma processAffiliateCommission_no_commission_witness :
  processAffiliateCommission no_faults (sample_user 1 starter active (Some 1) 10) 5 "tx1"
    trial_store = (inr None, trial_store)
  /\ processAffiliateCommission no_faults
       (mkUser 1 (Some 9%nat) not_affiliate 0 (sample_subscription starter active None 10))
       5 "tx1" trial_store = (inr None, trial_store)
  /\ processAffiliateCommission no_faults
       (mkUser 3 (Some 1%nat) not_affiliate 0 (sample_subscription starter active None 10))
       5 "tx1" trial_store = (inr None, trial_store).
Proof.
  split; [|split].
  - apply (processAffiliateCommission_no_commission no_faults trial_store
             (sample_user 1 starter active (Some 1) 10) 5 "tx1"). reflexivity.
  - destruct (processAffiliateCommission_no_commission no_faults trial_store
                (mkUser 1 (Some 9%nat) not_affiliate 0
                   (sample_subscription starter active None 10)) 5 "tx1") as (_ & H & _).
    apply (H 9%nat); reflexivity.
  - destruct (processAffiliateCommission_no_commission no_faults trial_store
                (mkUser 3 (Some 1%nat) not_affiliate 0
                   (sample_subscription starter active None 10)) 5 "tx1") as (_ & _ & H).
    apply (H 1%nat trial_user); [reflexivity | reflexivity | discriminate].
Defined.

(** X16.  A referrer with affiliate access but without an affiliate record
    earns nothing: the record built on the spot lacks the required
    [referralCode], its [save] is rejected, and the [catch] returns [null]
    with the store unchanged. *)
Theorem processAffiliateCommission_missing_affiliate
    (f : Faults) (st : Store) (user ru : User) (r : nat) (amount : float) (txid : string) :
  referredBy user = Some r ->
  users st !! r = Some ru ->
  hasAffiliateAccess ru = true ->
  affiliates st !! user_id ru = None ->
  processAffiliateCommission f user amount txid st = (inr None, st).
Proof.
  intros Href Hru Hacc Ha. unfold processAffiliateCommission. rewrite Href.
  unfold try_catch, bind, findUserById, findAffiliate. rewrite Hru. cbn beta iota.
  rewrite Hacc. cbn [negb]. rewrite Ha. reflexivity.
Qed.

Lemma processAffiliateCommission_missing_affiliate_witness :
  processAffiliateCommission no_faults (referred_user trial) 5 "tx1"
    (mkStore {[ 1%nat := referred_user trial; 2%nat := referrer_user ]} ∅ ∅)
  = (inr None, mkStore {[ 1%nat := referred_user trial; 2%nat := referrer_user ]} ∅ ∅).
Proof.
  apply (processAffiliateCommission_missing_affiliate no_faults
           (mkStore {[ 1%nat := referred_user trial; 2%nat := referrer_user ]} ∅ ∅)
           (referred_user trial) referrer_user 2); reflexivity.
Defined.

(** The entry of the paying user after the update in place, and the
    entries of the others. *)
Lemma update_referral_entries uid amount c l l' :
  update_referral uid amount c l = Some l' ->
  exists e,
    find_referral uid l = Some e
    /\ find_referral uid l'
       = Some (mkReferral uid true (lifetimeValue e + amount) (commissionEarned e + c))
    /\ other_referrals uid l' = other_referrals uid l.
Proof.
  unfold find_referral, other_referrals.
  revert l'. induction l as [|x l IH]; intros l' H; simpl in H; [discriminate H|].
  destruct (bool_decide (ref_user x = uid)) eqn:Hx.
  - injection H as <-. exists x. cbn [List.find List.filter ref_user].
    rewrite Hx. cbn [negb]. apply bool_decide_eq_true in Hx. rewrite Hx.
    rewrite ?bool_decide_eq_true_2 by reflexivity. repeat split.
  - destruct (update_referral uid amount c l) as [l0|]; simpl in H; [|discriminate H].
    injection H as <-. destruct (IH l0 eq_refl) as (e & He & He' & Ho).
    exists e. cbn [List.find List.filter]. rewrite Hx. cbn [negb].
    rewrite He, He', Ho. repeat split.
Qed.

Lemma find_referral_new uid (l : list Referral) (x : Referral) :
  existsb (fun r => bool_decide (ref_user r = uid)) l = false ->
  ref_user x = uid ->
  find_referral uid l = None
  /\ find_referral uid (l ++ [x]) = Some x
  /\ other_referrals uid (l ++ [x]) = other_referrals uid l.
Proof.
  unfold find_referral, other_referrals. intros Hno Hx.
  induction l as [|y l IH]; cbn [app List.find List.filter existsb] in *.
  - rewrite bool_decide_eq_true_2 by exact Hx. repeat split.
  - apply orb_false_iff in Hno as [Hy Hl]. rewrite Hy. cbn [negb].
    destruct (IH Hl) as (H1 & H2 & H3). rewrite H1, H2, H3. repeat split.
Qed.

(** X17.  Bookkeeping of a commission, in binary64 arithmetic.  When the
    referrer has affiliate access and an affiliate record, both saves
    succeed and the record as updated passes validation (none of its
    numbers is [NaN]), the run returns the commission
    [c = (amount * 20) / 100] and persists an affiliate record whose
    [totalEarnings] and [pendingEarnings] are the former ones plus [c];
    the entry of the paying user has its [lifetimeValue] raised by the
    amount and its [commissionEarned] raised by [c], or is a new entry
    holding the amount and [c]; the entries of the other users are
    unchanged. *)
Theorem processAffiliateCommission_bookkeeping
    (f : Faults) (st : Store) (user ru : User) (r : nat) (a : Affiliate)
    (amount : float) (txid : string) :
  referredBy user = Some r ->
  users st !! r = Some ru -> user_id ru = r -> hasAffiliateAccess ru = true ->
  affiliates st !! r = Some a -> aff_user a = r ->
  validateAffiliate (apply_commission (user_id user) amount a) = true ->
  f_referrer_save f = false -> f_affiliate_save f = false ->
  exists a',
    fst (processAffiliateCommission f user amount txid st)
    = inr (Some (mkCommissionResult r (amount * 20 / 100) txid))
    /\ affiliates (snd (processAffiliateCommission f user amount txid st)) !! r = Some a'
    /\ totalEarnings a' = (totalEarnings a + amount * 20 / 100)%float
    /\ pendingEarnings a' = (pendingEarnings a + amount * 20 / 100)%float
    /\ find_referral (user_id user) (referrals a')
       = Some (match find_referral (user_id user) (referrals a) with
               | Some e =>
                   mkReferral (user_id user) true (lifetimeValue e + amount)
                     (commissionEarned e + amount * 20 / 100)
               | None => mkReferral (user_id user) true amount (amount * 20 / 100)
               end)
    /\ other_referrals (user_id user) (referrals a')
       = other_referrals (user_id user) (referrals a).
Proof.
  intros Href Hru Hrid Hacc Ha Haid Hval F1 F2.
  rewrite (processAffiliateCommission_success f st user ru r a amount txid
             Href Hru Hrid Hacc Ha Haid Hval F1 F2).
  cbn [fst snd set_affiliates affiliates].
  destruct (apply_commission_spec (user_id user) amount a) as (Ht & Hp & _).
  exists (apply_commission (user_id user) amount a).
  split; [reflexivity|]. split; [apply lookup_insert_eq|].
  split; [exact Ht|]. split; [exact Hp|].
  unfold apply_commission. cbn [add_earnings referrals].
  destruct (update_referral (user_id user) amount (amount * 20 / 100) (referrals a))
    as [l|] eqn:Hup; cbn [set_referrals referrals].
  - destruct (update_referral_entries _ _ _ _ _ Hup) as (e & He & He' & Ho).
    rewrite He, He', Ho. split; reflexivity.
  - destruct (find_referral_new (user_id user) (referrals a)
                (mkReferral (user_id user) true amount (amount * 20 / 100))
                (update_referral_None _ _ _ _ Hup) eq_refl) as (H1 & H2 & H3).
    rewrite H1, H2, H3. split; reflexivity.
Qed.

Lemma processAffiliateCommission_bookkeeping_witness :
  exists a',
    affiliates (snd (processAffiliateCommission no_faults (referred_user active) 3.99 "tx1"
                       (referral_store active))) !! 2%nat = Some a'
    /\ totalEarnings a' = (0 + 3.99 * 20 / 100)%float.
Proof.
  destruct (processAffiliateCommission_bookkeeping no_faults (referral_store active)
              (referred_user active) referrer_user 2 referrer_affiliate 3.99 "tx1"
              eq_refl eq_refl eq_refl eq_refl eq_refl eq_refl eq_refl eq_refl eq_refl)
    as (a' & _ & Ha' & Ht & _).
  exists a'. split; [exact Ha' | exact Ht].
Defined.

(** X18.  Referral entries.  Under the same conditions the affiliate record
    afterwards has an entry for the paying user, keeps at most one entry
    per referred user if it had so before, and the referrer's
    [activeReferrals] counter grows by one exactly when the entry is new. *)
Theorem processAffiliateCommission_referral_entry
    (f : Faults) (st : Store) (user ru : User) (r : nat) (a : Affiliate)
    (amount : float) (txid : string) :
  referredBy user = Some r ->
  users st !! r = Some ru -> user_id ru = r -> hasAffiliateAccess ru = true ->
  affiliates st !! r = Some a -> aff_user a = r ->
  validateAffiliate (apply_commission (user_id user) amount a) = true ->
  f_referrer_save f = false -> f_affiliate_save f = false ->
  exists a',
    affiliates (snd (processAffiliateCommission f user amount txid st)) !! r = Some a'
    /\ has_referral (user_id user) a' = true
    /\ (NoDup (map ref_user (referrals a)) -> NoDup (map ref_user (referrals a')))
    /\ length (referrals a')
       = (if has_referral (user_id user) a then length (referrals a)
          else S (length (referrals a)))
    /\ activeReferrals_of (snd (processAffiliateCommission f user amount txid st)) r
       = activeReferrals ru + b2z (negb (has_referral (user_id user) a)).
Proof.
  intros Href Hru Hrid Hacc Ha Haid Hval F1 F2.
  rewrite (processAffiliateCommission_success f st user ru r a amount txid
             Href Hru Hrid Hacc Ha Haid Hval F1 F2).
  cbn [fst snd set_affiliates affiliates].
  destruct (apply_commission_spec (user_id user) amount a)
    as (_ & _ & Hhas & Hnd & Hlen & _).
  exists (apply_commission (user_id user) amount a).
  split; [apply lookup_insert_eq|]. split; [exact Hhas|]. split; [exact Hnd|].
  split; [exact Hlen|].
  unfold activeReferrals_of.
  destruct (has_referral (user_id user) a); cbn [negb b2z users set_affiliates].
  - rewrite Hru. lia.
  - cbn [saveUser users set_users incr_activeReferrals user_id].
    rewrite Hrid, lookup_insert_eq. reflexivity.
Qed.

Lemma processAffiliateCommission_referral_entry_witness :
  activeReferrals_of
    (snd (processAffiliateCommission no_faults (referred_user active) 5 "tx1"
            (referral_store active))) 2
  = 1.
Proof.
  destruct (processAffiliateCommission_referral_entry no_faults (referral_store active)
              (referred_user active) referrer_user 2 referrer_affiliate 5 "tx1"
              eq_refl eq_refl eq_refl eq_refl eq_refl eq_refl eq_refl eq_refl eq_refl)
    as (a' & _ & _ & _ & _ & Hact).
  exact Hact.
Defined.

(** X19.  The two saves of a first commission are not atomic: when
    [referrer.save()] succeeds and [affiliate.save()] then fails, the run
    returns [null] and the affiliate record is unchanged (no earnings, no
    referral entry), but the referrer's [activeReferrals] counter has
    already been incremented. *)
Theorem processAffiliateCommission_partial_write
    (f : Faults) (st : Store) (user ru : User) (r : nat) (a : Affiliate)
    (amount : float) (txid : string) :
  referredBy user = Some r ->
  users st !! r = Some ru -> user_id ru = r -> hasAffiliateAccess ru = true ->
  affiliates st !! r = Some a -> validateAffiliate a = true ->
  has_referral (user_id user) a = false ->
  f_referrer_save f = false -> f_affiliate_save f = true ->
  processAffiliateCommission f user amount txid st
  = (inr None, saveUser st (incr_activeReferrals ru))
  /\ affiliates (saveUser st (incr_activeReferrals ru)) = affiliates st
  /\ activeReferrals_of (saveUser st (incr_activeReferrals ru)) r = activeReferrals ru + 1.
Proof.
  intros Href Hru Hrid Hacc Ha Hval Hno F1 F2.
  split; [|split; [reflexivity|]].
  - unfold processAffiliateCommission. rewrite Href.
    unfold bind, try_catch, findUserById, findAffiliate. rewrite Hru. cbn beta iota.
    rewrite Hacc. cbn [negb]. rewrite Hrid, Ha. cbn [ret add_earnings referrals].
    assert (Hup : update_referral (user_id user) amount (amount * 20 / 100) (referrals a)
                  = None).
    { pose proof (update_referral_isSome (user_id user) amount (amount * 20 / 100)%float
                    (referrals a)) as E.
      unfold has_referral in Hno. rewrite Hno in E.
      destruct (update_referral _ _ _ _); [discriminate E | reflexivity]. }
    rewrite Hup.
    unfold saveReferrerM, saveAffiliateM, fails, bind, ret, saveUserM, throw.
    rewrite F1, F2. destruct (negb (validateAffiliate _)); reflexivity.
  - unfold activeReferrals_of, saveUser. cbn [users set_users incr_activeReferrals user_id].
    rewrite Hrid, lookup_insert_eq. reflexivity.
Qed.

Lemma processAffiliateCommission_partial_write_witness :
  processAffiliateCommission (mkFaults false false true false false)
    (referred_user active) 5 "tx1" (referral_store active)
  = (inr None, saveUser (referral_store active) (incr_activeReferrals referrer_user)).
Proof.
  apply (processAffiliateCommission_partial_write (mkFaults false false true false false)
           (referral_store active) (referred_user active) referrer_user 2
           referrer_affiliate 5 "tx1"); reflexivity.
Defined.

(** ** Counting and the instance routes *)

Lemma filter_length_Permutation {A} (q : A -> bool) (l l' : list A) :
  l ≡ₚ l' -> length (List.filter q l) = length (List.filter q l').
Proof.
  induction 1 as [|x l l' _ IH|x y l|l l' l'' _ IH1 _ IH2]; simpl.
  - reflexivity.
  - destruct (q x); simpl; congruence.
  - destruct (q x), (q y); reflexivity.
  - congruence.
Qed.

Lemma countDocuments_insert_fresh (q : Instance -> bool) (c : InstanceColl)
    (k : nat) (x : Instance) :
  c !! k = None ->
  countDocuments q (<[k := x]> c) = countDocuments q c + b2z (q x).
Proof.
  intros Hk. unfold countDocuments, find.
  rewrite (filter_length_Permutation q _ ((k, x) :: map_to_list c).*2)
    by (apply fmap_Permutation, map_to_list_insert, Hk).
  cbn [fmap list_fmap snd List.filter]. destruct (q x); cbn [length b2z]; lia.
Qed.

Lemma countDocuments_insert (q : Instance -> bool) (c : InstanceColl)
    (k : nat) (old x : Instance) :
  c !! k = Some old ->
  countDocuments q (<[k := x]> c) = countDocuments q c - b2z (q old) + b2z (q x).
Proof.
  intros Hk.
  assert (Hc : c = <[k := old]> (delete k c))
    by (rewrite insert_delete_eq; symmetry; apply insert_id, Hk).
  rewrite <- (insert_delete_eq c k x).
  rewrite Hc at 2.
  rewrite !countDocuments_insert_fresh by apply lookup_delete_eq. lia.
Qed.

Lemma saveInstance_ok (c : InstanceColl) (i : Instance) :
  inst_status i <> disabled ->
  saveInstance c i = inr (<[inst_id i := stored_instance i]> c).
Proof.
  intros Hs. unfold saveInstance, validateInstance.
  rewrite bool_decide_eq_true_2; [reflexivity|].
  unfold statusEnum. destruct (inst_status i); try contradiction;
    repeat first [apply list_elem_of_here | apply list_elem_of_further].
Qed.

Lemma saveInstanceM_ok (i : Instance) (st : Store) :
  inst_status i <> disabled ->
  saveInstanceM i st
  = (inr tt, set_instances (<[inst_id i := stored_instance i]> (instances st)) st).
Proof. intros Hs. unfold saveInstanceM. rewrite saveInstance_ok by exact Hs. reflexivity. Qed.

Lemma softDeleteM_ok (i : Instance) (now : Z) (st : Store) :
  softDeleteM i now st
  = (inr tt, set_instances (<[inst_id i := soft_deleted i now]> (instances st)) st).
Proof.
  unfold softDeleteM, softDelete. rewrite saveInstance_ok by discriminate. reflexivity.
Qed.

Lemma findOwnedInstance_found (id uid : nat) (i : Instance) (st : Store) :
  instances st !! id = Some i -> q_live uid i = true ->
  findOwnedInstance id uid st = (inr (Some i), st).
Proof. intros Hi Hq. unfold findOwnedInstance. rewrite Hi, Hq. reflexivity. Qed.

Lemma q_live_deleted uid i now : q_live uid (soft_deleted i now) = false.
Proof. unfold q_live. cbn [soft_deleted deletedAt]. apply andb_false_r. Qed.

Lemma delete_accepted_run (now : Z) (user : User) (id : nat) (i : Instance)
    (st : Store) :
  instances st !! id = Some i -> inst_id i = id -> q_live (user_id user) i = true ->
  deleteInstanceRoute true now user id st
  = (inr DeleteOk, set_instances (<[id := soft_deleted i now]> (instances st)) st).
Proof.
  intros Hi Hid Hq. unfold deleteInstanceRoute, try_catch.
  unfold bind at 1. rewrite (findOwnedInstance_found id _ i st Hi Hq).
  unfold bind at 1. rewrite saveInstanceM_ok by discriminate.
  unfold bind at 1. rewrite softDeleteM_ok.
  cbn [set_inst_status inst_id instances set_instances ret].
  rewrite Hid, insert_insert_eq. destruct st; reflexivity.
Qed.

(** X20.  Deleting through routes/instances.js when the gateway accepts:
    the owner's live instance ends soft-deleted (status [deleting],
    [deletedAt = now]), the owner has one live instance fewer, and a second
    delete request for it answers 404 and changes nothing. *)
Theorem deleteInstanceRoute_success (now : Z) (user : User) (id : nat) (i : Instance)
    (st : Store) :
  instances st !! id = Some i -> inst_id i = id -> q_live (user_id user) i = true ->
  exists st' i',
    deleteInstanceRoute true now user id st = (inr DeleteOk, st')
    /\ instances st' !! id = Some i'
    /\ inst_status i' = deleting /\ deletedAt i' = Some now
    /\ countDocuments (q_live (user_id user)) (instances st')
       = countDocuments (q_live (user_id user)) (instances st) - 1
    /\ forall deleteResult now',
         deleteInstanceRoute deleteResult now' user id st' = (inr DeleteNotFound, st').
Proof.
  intros Hi Hid Hq.
  rewrite (delete_accepted_run now user id i st Hi Hid Hq).
  eexists _, _. split; [reflexivity|].
  cbn [instances set_instances]. split; [apply lookup_insert_eq|].
  split; [reflexivity|]. split; [reflexivity|]. split.
  - rewrite (countDocuments_insert _ _ _ i) by exact Hi.
    rewrite Hq, q_live_deleted. cbn [b2z]. lia.
  - intros deleteResult now'. unfold deleteInstanceRoute, try_catch, bind, findOwnedInstance.
    cbn [instances set_instances]. rewrite lookup_insert_eq, q_live_deleted. reflexivity.
Qed.

Lemma deleteInstanceRoute_success_witness :
  exists st',
    deleteInstanceRoute true 30 trial_user 7 trial_store = (inr DeleteOk, st')
    /\ countDocuments (q_live (user_id trial_user)) (instances st') = 0.
Proof.
  destruct (deleteInstanceRoute_success 30 trial_user 7 (sample_instance 7 1 running None)
              trial_store eq_refl eq_refl eq_refl)
    as (st' & i' & Hrun & _ & _ & _ & Hcount & _).
  exists st'. split; [exact Hrun|]. rewrite Hcount. reflexivity.
Defined.

(** X21.  Deleting through routes/instances.js when the gateway refuses:
    the instance is left live with status [error].  It still counts for the
    quota check of [canCreateInstance], whose answer for the owner is
    therefore unchanged, while it no longer counts in the number of
    non-terminal live instances. *)
Theorem deleteInstanceRoute_failure (now : Z) (user : User) (id : nat) (i : Instance)
    (st : Store) :
  instances st !! id = Some i -> inst_id i = id -> q_live (user_id user) i = true ->
  exists st' i',
    deleteInstanceRoute false now user id st = (inr DeleteFailed, st')
    /\ instances st' !! id = Some i'
    /\ inst_status i' = error /\ deletedAt i' = None
    /\ countDocuments (q_live (user_id user)) (instances st')
       = countDocuments (q_live (user_id user)) (instances st)
    /\ (forall t, canCreateInstance (instances st') user t
                  = canCreateInstance (instances st) user t)
    /\ currentLiveCount (instances st') user
       = currentLiveCount (instances st) user
         - b2z (q_live_nonterminal (user_id user) i).
Proof.
  intros Hi Hid Hq.
  assert (Hdel : deletedAt i = None).
  { unfold q_live in Hq. apply andb_true_iff in Hq as [_ Hd].
    apply bool_decide_eq_true in Hd. exact Hd. }
  assert (Hown : userId i = user_id user).
  { unfold q_live in Hq. apply andb_true_iff in Hq as [Ho _].
    apply bool_decide_eq_true in Ho. exact Ho. }
  assert (Hrun : deleteInstanceRoute false now user id st
                 = (inr DeleteFailed,
                    set_instances
                      (<[id := stored_instance
                                (set_inst_status error (set_inst_status deleting i))]>
                         (instances st)) st)).
  { unfold deleteInstanceRoute, try_catch.
    unfold bind at 1. rewrite (findOwnedInstance_found id _ i st Hi Hq).
    unfold bind at 1. rewrite saveInstanceM_ok by discriminate.
    unfold bind at 1. rewrite saveInstanceM_ok by discriminate.
    cbn [set_inst_status inst_id instances set_instances ret].
    rewrite Hid, insert_insert_eq. destruct st; reflexivity. }
  rewrite Hrun. eexists _, _. split; [reflexivity|].
  cbn [instances set_instances]. split; [apply lookup_insert_eq|].
  split; [reflexivity|]. split; [exact Hdel|].
  assert (Hcount : countDocuments (q_live (user_id user))
                     (<[id := stored_instance
                                (set_inst_status error (set_inst_status deleting i))]>
                        (instances st))
                   = countDocuments (q_live (user_id user)) (instances st)).
  { rewrite (countDocuments_insert _ _ _ i) by exact Hi. rewrite Hq.
    unfold q_live. cbn [stored_instance set_inst_status userId deletedAt].
    rewrite Hdel, Hown, !bool_decide_eq_true_2 by reflexivity. cbn [andb b2z]. lia. }
  split; [exact Hcount|]. split.
  - intros t. unfold canCreateInstance. rewrite Hcount. reflexivity.
  - unfold currentLiveCount. rewrite (countDocuments_insert _ _ _ i) by exact Hi.
    assert (Hf : q_live_nonterminal (user_id user)
                   (stored_instance (set_inst_status error (set_inst_status deleting i)))
                 = false).
    { unfold q_live_nonterminal. cbn [stored_instance set_inst_status inst_status].
      rewrite (bool_decide_eq_true_2 (error = error)) by reflexivity.
      rewrite orb_true_r. apply andb_false_r. }
    rewrite Hf. cbn [b2z]. lia.
Qed.

Lemma deleteInstanceRoute_failure_witness :
  exists st',
    deleteInstanceRoute false 30 trial_user 7 trial_store = (inr DeleteFailed, st')
    /\ currentLiveCount (instances st') trial_user = 0
    /\ countDocuments (q_live (user_id trial_user)) (instances st') = 1.
Proof.
  destruct (deleteInstanceRoute_failure 30 trial_user 7 (sample_instance 7 1 running None)
              trial_store eq_refl eq_refl eq_refl)
    as (st' & i' & Hrun & _ & _ & _ & Hcount & _ & Hcur).
  exists st'. split; [exact Hrun|]. split.
  - rewrite Hcur. reflexivity.
  - rewrite Hcount. reflexivity.
Defined.

(** X22.  The two delete routes differ on a gateway refusal only: when the
    gateway accepts, the API route leaves exactly the store the web route
    leaves; when it refuses, the API route changes nothing (the web route
    marks the instance [error]). *)
Theorem apiDeleteInstanceRoute_outcomes (now : Z) (user : User) (id : nat) (i : Instance)
    (st : Store) :
  instances st !! id = Some i -> inst_id i = id -> q_live (user_id user) i = true ->
  apiDeleteInstanceRoute true now user id st = deleteInstanceRoute true now user id st
  /\ apiDeleteInstanceRoute false now user id st = (inr DeleteFailed, st).
Proof.
  intros Hi Hid Hq. split.
  - rewrite (delete_accepted_run now user id i st Hi Hid Hq).
    unfold apiDeleteInstanceRoute, try_catch.
    unfold bind at 1. rewrite (findOwnedInstance_found id _ i st Hi Hq).
    unfold bind at 1. rewrite softDeleteM_ok. rewrite Hid. reflexivity.
  - unfold apiDeleteInstanceRoute, try_catch.
    unfold bind at 1. rewrite (findOwnedInstance_found id _ i st Hi Hq). reflexivity.
Qed.

Lemma apiDeleteInstanceRoute_outcomes_witness :
  apiDeleteInstanceRoute false 30 trial_user 7 trial_store = (inr DeleteFailed, trial_store).
Proof.
  apply (apiDeleteInstanceRoute_outcomes 30 trial_user 7 (sample_instance 7 1 running None)
           trial_store eq_refl eq_refl eq_refl).
Defined.

(** X23.  Neither delete route touches an instance that does not exist,
    belongs to another user, or is already soft-deleted: both answer 404
    and leave the store unchanged, whatever the gateway would say. *)
Theorem delete_routes_not_found (deleteResult : bool) (now : Z) (user : User) (id : nat)
    (st : Store) :
  (instances st !! id = None
   \/ exists i, instances st !! id = Some i
                /\ (userId i <> user_id user \/ deletedAt i <> None)) ->
  deleteInstanceRoute deleteResult now user id st = (inr DeleteNotFound, st)
  /\ apiDeleteInstanceRoute deleteResult now user id st = (inr DeleteNotFound, st).
Proof.
  intros H.
  assert (Hfind : findOwnedInstance id (user_id user) st = (inr None, st)).
  { unfold findOwnedInstance. destruct H as [-> | (i & -> & Hor)]; [reflexivity|].
    unfold q_live. destruct Hor as [Ho | Hd].
    - rewrite (bool_decide_eq_false_2 _ Ho). reflexivity.
    - rewrite (bool_decide_eq_false_2 _ Hd), andb_false_r. reflexivity. }
  unfold deleteInstanceRoute, apiDeleteInstanceRoute, try_catch, bind.
  rewrite Hfind. split; reflexivity.
Qed.

Lemma delete_routes_not_found_witness :
  deleteInstanceRoute true 30 (sample_user 2 starter active (Some 1) 10) 7 trial_store
  = (inr DeleteNotFound, trial_store).
Proof.
  apply (delete_routes_not_found true 30 (sample_user 2 starter active (Some 1) 10) 7
           trial_store).
  right. exists (sample_instance 7 1 running None). split; [reflexivity|].
  left. discriminate.
Defined.

(** A deployment request that passes the limit check and the name check. *)
Lemma deployRoute_run (deployResult : bool) (newId : nat) (now : Z) (user : User)
    (st : Store) :
  checkInstanceLimit (instances st) user now = Next ->
  deployRoute false deployResult newId now user st
  = (inr (if deployResult then Deployed else DeployFailed),
     set_instances
       (<[newId := set_inst_status (if deployResult then running else error)
                     (new_instance newId (user_id user))]> (instances st)) st).
Proof.
  intros Hnext. unfold deployRoute. unfold bind at 1. unfold get_store at 1.
  cbn beta iota. rewrite Hnext. unfold try_catch.
  unfold bind at 1. rewrite saveInstanceM_ok by discriminate.
  destruct deployResult; unfold bind at 1; rewrite saveInstanceM_ok by discriminate;
    cbn [set_inst_status new_instance inst_id instances set_instances ret];
    rewrite insert_insert_eq; destruct st; reflexivity.
Qed.

(** The store a passing deployment leaves, and its counts. *)
Lemma deployRoute_effect (deployResult : bool) (newId : nat) (now : Z) (user : User)
    (st : Store) :
  instances st !! newId = None ->
  checkInstanceLimit (instances st) user now = Next ->
  exists st' i,
    deployRoute false deployResult newId now user st
    = (inr (if deployResult then Deployed else DeployFailed), st')
    /\ instances st' !! newId = Some i
    /\ userId i = user_id user /\ deletedAt i = None
    /\ inst_status i = (if deployResult then running else error)
    /\ countDocuments (q_live (user_id user)) (instances st')
       = countDocuments (q_live (user_id user)) (instances st) + 1
    /\ currentLiveCount (instances st') user
       = currentLiveCount (instances st) user + b2z deployResult.
Proof.
  intros Hfresh Hnext. rewrite (deployRoute_run deployResult newId now user st Hnext).
  eexists _, _. split; [reflexivity|]. cbn [instances set_instances].
  split; [apply lookup_insert_eq|]. split; [reflexivity|]. split; [reflexivity|].
  split; [reflexivity|]. unfold currentLiveCount.
  rewrite !countDocuments_insert_fresh by exact Hfresh.
  unfold q_live, q_live_nonterminal.
  cbn [set_inst_status new_instance userId deletedAt inst_status].
  rewrite !bool_decide_eq_true_2 by reflexivity.
  destruct deployResult; split; reflexivity.
Qed.

(** X24.  A deployment that passes the checks adds one live instance of the
    user under the fresh id, [running] if the gateway accepted and [error]
    if it refused.  In both cases the count used by [canCreateInstance]
    grows by one; the number of non-terminal live instances grows only when
    the gateway accepted, so a failed deployment occupies a quota slot that
    the "current count" does not show. *)
Theorem deployRoute_counts (deployResult : bool) (newId : nat) (now : Z) (user : User)
    (st : Store) :
  instances st !! newId = None ->
  checkInstanceLimit (instances st) user now = Next ->
  exists st' i,
    deployRoute false deployResult newId now user st
    = (inr (if deployResult then Deployed else DeployFailed), st')
    /\ instances st' !! newId = Some i
    /\ userId i = user_id user /\ deletedAt i = None
    /\ inst_status i = (if deployResult then running else error)
    /\ countDocuments (q_live (user_id user)) (instances st')
       = countDocuments (q_live (user_id user)) (instances st) + 1
    /\ currentLiveCount (instances st') user
       = currentLiveCount (instances st) user + b2z deployResult.
Proof.
  intros Hfresh Hnext. exact (deployRoute_effect deployResult newId now user st Hfresh Hnext).
Qed.

Lemma deployRoute_counts_witness :
  exists st',
    deployRoute false false 8 5 (sample_user 1 starter active (Some 2) 10) trial_store
    = (inr DeployFailed, st')
    /\ countDocuments (q_live (user_id (sample_user 1 starter active (Some 2) 10)))
         (instances st') = 2
    /\ currentLiveCount (instances st') (sample_user 1 starter active (Some 2) 10) = 1.
Proof.
  destruct (deployRoute_counts false 8 5 (sample_user 1 starter active (Some 2) 10)
              trial_store eq_refl eq_refl)
    as (st' & i & Hrun & _ & _ & _ & _ & Hcount & Hcur).
  exists st'. split; [exact Hrun|]. split.
  - rewrite Hcount. reflexivity.
  - rewrite Hcur. reflexivity.
Defined.

(** X25.  Quota safety of the deployment route.  For a finite computed
    limit, a deployment request never takes the number of live instances of
    the user above the limit: if the number was within the limit before the
    request, it is within the limit afterwards, whatever the outcome. *)
Theorem deployRoute_respects_limit (nameTaken deployResult : bool) (newId : nat) (now : Z)
    (user : User) (st : Store) :
  instances st !! newId = None ->
  getMaxInstances user now <> -1 ->
  countDocuments (q_live (user_id user)) (instances st) <= getMaxInstances user now ->
  countDocuments (q_live (user_id user))
    (instances (snd (deployRoute nameTaken deployResult newId now user st)))
  <= getMaxInstances user now.
Proof.
  intros Hfresh Hfin Hle.
  destruct (checkInstanceLimit (instances st) user now) eqn:Hlim.
  1,2: unfold deployRoute, bind, get_store; rewrite Hlim; exact Hle.
  destruct nameTaken.
  - unfold deployRoute, bind, get_store, try_catch. rewrite Hlim. exact Hle.
  - destruct (deployRoute_effect deployResult newId now user st Hfresh Hlim)
      as (st' & i & Hrun & _ & _ & _ & _ & Hcount & _).
    rewrite Hrun. cbn [snd]. rewrite Hcount.
    assert (Hcan : canCreateInstance (instances st) user now = true).
    { unfold checkInstanceLimit in Hlim.
      destruct (negb (isSubscriptionActive user now)); [discriminate Hlim|].
      destruct (canCreateInstance (instances st) user now); [reflexivity|].
      discriminate Hlim. }
    apply canCreateInstance_true_iff in Hcan as [_ [Heq | Hlt]]; [contradiction | lia].
Qed.

Lemma deployRoute_respects_limit_witness :
  countDocuments (q_live (user_id (sample_user 1 starter active (Some 2) 10)))
    (instances (snd (deployRoute false true 8 5 (sample_user 1 starter active (Some 2) 10)
                       trial_store)))
  <= getMaxInstances (sample_user 1 starter active (Some 2) 10) 5.
Proof.
  apply (deployRoute_respects_limit false true 8 5
           (sample_user 1 starter active (Some 2) 10) trial_store).
  - reflexivity.
  - vm_compute. discriminate.
  - vm_compute. discriminate.
Defined.

(** X26.  A failed deployment locks a single-instance plan: for a user with
    computed limit 1 and no live instance, after a deployment that the
    gateway refuses [canCreateInstance] is false and [checkInstanceLimit]
    answers "limit reached" while reporting a current count of 0. *)
Theorem deployRoute_failure_blocks (newId : nat) (now : Z) (user : User) (st : Store) :
  instances st !! newId = None ->
  getMaxInstances user now = 1 ->
  countDocuments (q_live (user_id user)) (instances st) = 0 ->
  exists st',
    deployRoute false false newId now user st = (inr DeployFailed, st')
    /\ canCreateInstance (instances st') user now = false
    /\ checkInstanceLimit (instances st') user now
       = LimitReached 0 1 (plan (subscription user))
           (bool_decide (plan (subscription user) = starter)).
Proof.
  intros Hfresh Hmax Hzero.
  assert (Hact : isSubscriptionActive user now = true).
  { destruct (isSubscriptionActive user now) eqn:E; [reflexivity|].
    unfold getMaxInstances in Hmax. rewrite E in Hmax. discriminate Hmax. }
  assert (Hcan : canCreateInstance (instances st) user now = true).
  { apply canCreateInstance_true_iff. split; [exact Hact | right; lia]. }
  assert (Hlim : checkInstanceLimit (instances st) user now = Next).
  { unfold checkInstanceLimit. rewrite Hact, Hcan. reflexivity. }
  assert (Hcur : currentLiveCount (instances st) user = 0).
  { pose proof (currentLiveCount_le (instances st) user).
    unfold currentLiveCount, countDocuments in *. lia. }
  destruct (deployRoute_effect false newId now user st Hfresh Hlim)
    as (st' & i & Hrun & _ & _ & _ & _ & Hcount & Hcur').
  exists st'. split; [exact Hrun|].
  assert (Hcan' : canCreateInstance (instances st') user now = false).
  { unfold canCreateInstance. rewrite Hact, Hmax, Hcount, Hzero. reflexivity. }
  split; [exact Hcan'|].
  unfold checkInstanceLimit. rewrite Hact, Hcan'. cbn [negb].
  fold (currentLiveCount (instances st') user). rewrite Hcur', Hcur, Hmax. reflexivity.
Qed.

Lemma deployRoute_failure_blocks_witness :
  exists st',
    deployRoute false false 8 5 quota_user empty_store = (inr DeployFailed, st')
    /\ canCreateInstance (instances st') quota_user 5 = false
    /\ checkInstanceLimit (instances st') quota_user 5 = LimitReached 0 1 starter true.
Proof.
  apply (deployRoute_failure_blocks 8 5 quota_user empty_store); reflexivity.
Defined.

(** ** The routes stay within the reachable stores *)







